(** * Triangle rasterizer (imbuf): shallow embedding and properties

    The embedding follows the rasterizer header of the [imbuf] module:
    [VertexOutInterface], [Rasterline], [Rasterlines] and the [Rasterizer]
    class with [draw_triangle], [flush], [rasterize_triangle],
    [calc_vertex_output_data], [order_triangle_vertices],
    [clamped_rasterline], [render_rasterline] and [append].

    - [float] is IEEE-754 binary32, taken from the Standard Library's
      executable specification of floating point ([SpecFloat], precision 24,
      [emax] 128).
    - [int] values are integers of [Z]; [uint32_t] values are integers of [Z]
      reduced modulo [2^32] wherever the source computes in [uint32_t].
    - The rasterizer object is a record that is passed through every member
      function; shaders, clamping method and the buffer size are fixed per
      instantiation of the class template and are section variables.
    - [printf] tracing ([DEBUG_PRINT]) and [BLI_assert] have no effect on the
      state and are left out. *)

From Stdlib Require Import ZArith List Bool Lia SpecFloat.
Import ListNotations.
Local Open Scope Z_scope.

Set Implicit Arguments.

(** ** Scalars *)

(** [float]: binary32. *)
Definition float := spec_float.

Module F.
Definition prec : Z := 24.
Definition emax : Z := 128.

Definition add : float -> float -> float := SFadd prec emax.
Definition sub : float -> float -> float := SFsub prec emax.
Definition mul : float -> float -> float := SFmul prec emax.
Definition div : float -> float -> float := SFdiv prec emax.
Definition abs : float -> float := SFabs.

(** [a < b], [a >= b] and [a == b]; all are false when a NaN is involved. *)
Definition ltb (a b : float) : bool := SFltb a b.
Definition geb (a b : float) : bool := SFleb b a.
Definition gtb (a b : float) : bool := SFltb b a.
Definition leb (a b : float) : bool := SFleb a b.
Definition eqb (a b : float) : bool := SFeqb a b.

(** Conversion [int -> float] (round to nearest even). *)
Definition of_int (z : Z) : float := binary_normalize prec emax z 0 false.

(** The value [m * 2^e], rounded to binary32. *)
Definition make (m e : Z) : float := binary_normalize prec emax m e false.

Definition zero : float := S754_zero false.

(** [floorf] and [ceilf] followed by the conversion to [int], and [floor]
    as a [float]. *)
Definition floor_int (a : float) : Z :=
  match a with
  | S754_finite s m e =>
      let v := cond_Zopp s (Zpos m) in
      if 0 <=? e then v * 2 ^ e else v / 2 ^ (- e)
  | _ => 0
  end.

Definition ceil_int (a : float) : Z := - floor_int (SFopp a).

Definition floor (a : float) : float :=
  match a with
  | S754_finite _ _ e => if 0 <=? e then a else of_int (floor_int a)
  | _ => a
  end.
End F.

Arguments F.add : simpl never.
Arguments F.sub : simpl never.
Arguments F.mul : simpl never.
Arguments F.div : simpl never.
Arguments F.abs : simpl never.
Arguments F.ltb : simpl never.
Arguments F.geb : simpl never.
Arguments F.gtb : simpl never.
Arguments F.leb : simpl never.
Arguments F.eqb : simpl never.
Arguments F.of_int : simpl never.
Arguments F.make : simpl never.

(** [uint32_t] arithmetic. *)
Definition wrap32 (z : Z) : Z := z mod 2 ^ 32.

(** ** [float2] *)

Module float2.
Record t : Type := mk { x : float; y : float }.

Definition add (a b : t) : t := mk (F.add (x a) (x b)) (F.add (y a) (y b)).
Definition sub (a b : t) : t := mk (F.sub (x a) (x b)) (F.sub (y a) (y b)).
Definition div (a : t) (d : float) : t := mk (F.div (x a) d) (F.div (y a) d).
Definition mul (a : t) (m : float) : t := mk (F.mul (x a) m) (F.mul (y a) m).
End float2.

(** ** Interface data of the vertex stage *)

(** "The data type should implement the +=, =, -, / and * operator." *)
Class Interpolable (T : Type) : Type := {
  inner_add : T -> T -> T;
  inner_sub : T -> T -> T;
  inner_div : T -> float -> T;
  inner_mul : T -> float -> T
}.

#[export] Instance float_Interpolable : Interpolable float := {
  inner_add := F.add;
  inner_sub := F.sub;
  inner_div := F.div;
  inner_mul := F.mul
}.

Module VertexOutInterface.
Section Ops.
Context {Inner : Type} {InnerOps : Interpolable Inner}.

Record t : Type := mk { coord : float2.t; data : Inner }.

(** [operator+=]: the updated [*this]. *)
Definition add_assign (self other : t) : t :=
  mk (float2.add (coord self) (coord other))
     (inner_add (data self) (data other)).

(** [operator-]. *)
Definition sub (self other : t) : t :=
  let result := mk (float2.sub (coord self) (coord other))
                   (inner_sub (data self) (data other)) in
  result.

(** [operator/]. *)
Definition div (self : t) (divider : float) : t :=
  let result := mk (float2.div (coord self) divider)
                   (inner_div (data self) divider) in
  result.

(** [operator*]: [result] is computed and [*this] is returned. *)
Definition mul (self : t) (multiplier : float) : t :=
  let result := mk (float2.mul (coord self) multiplier)
                   (inner_mul (data self) multiplier) in
  self.

End Ops.
Arguments t Inner : clear implicits.
End VertexOutInterface.

Abbreviation VertexOut := VertexOutInterface.t.

(** [float4]: the four channels a fragment shader produces. *)
Module float4.
Record t : Type := mk { x : float; y : float; z : float; w : float }.

(** [v[k]] for [k] in 0..3. *)
Definition get (v : t) (k : Z) : float :=
  if k =? 0 then x v else if k =? 1 then y v else if k =? 2 then z v else w v.
End float4.

(** ** Image buffer *)

(** [ImBuf]: [x] and [y] are the width and height ([int]), [channels] the
    configured channel count, and [rect_float] the float storage.  The storage
    is reached through a raw [float *]: the model is the store behind that
    pointer, addressed by element offset.  The extent of the allocation is the
    caller's obligation and appears as a hypothesis where a statement needs
    it. *)
Module ImBuf.
Record t : Type := mk {
  x : Z;
  y : Z;
  channels : Z;
  rect_float : Z -> float
}.

Definition store (m : Z -> float) (i : Z) (v : float) : Z -> float :=
  fun j => if j =? i then v else m j.

(** [copy_v4_v4(&rect_float[offset], v)]. *)
Definition copy_v4_v4 (im : t) (offset : Z) (v : float4.t) : t :=
  let m := rect_float im in
  let m := store m offset (float4.x v) in
  let m := store m (offset + 1) (float4.y v) in
  let m := store m (offset + 2) (float4.z v) in
  let m := store m (offset + 3) (float4.w v) in
  mk (x im) (y im) (channels im) m.
End ImBuf.

(** ** Rasterline *)

Module Rasterline.
Section Def.
Variable FragmentInput : Type.

(** [y], [start_x] and [end_x] are [uint32_t]. *)
Record t : Type := mk {
  y : Z;
  start_x : Z;
  end_x : Z;
  start_data : FragmentInput;
  delta_step : FragmentInput
}.
End Def.
End Rasterline.

(** ** [blender::Vector]

    The container of [BLI_vector.hh], as far as [Rasterlines] uses it.
    [Vector(int64_t size)] "creates a vector with a specific size", its
    elements default-constructed: it resizes, it does not reserve.  [append]
    adds at the end, [size] counts the elements, [clear] removes them all. *)
Module Vector.
Section Def.
Variable T : Type.

Definition t : Type := list T.

(** [Vector(size)]; [default] stands for a default-constructed element. *)
Definition with_size (size : Z) (default : T) : t := repeat default (Z.to_nat size).

Definition append (v : t) (value : T) : t := v ++ [value].
Definition size (v : t) : Z := Z.of_nat (length v).
Definition is_empty (v : t) : bool := size v =? 0.
Definition has_items (v : t) : bool := negb (is_empty v).
Definition clear (v : t) : t := [].
End Def.
End Vector.

(** ** [Rasterlines] *)

Module Rasterlines.
Section Def.
Variable Rasterline : Type.
Variable BufferSize : Z.

Record t : Type := mk { buffer : Vector.t Rasterline }.

(** [explicit Rasterlines() : buffer(BufferSize)]. *)
Definition new (default : Rasterline) : t := mk (Vector.with_size BufferSize default).

Definition append (self : t) (value : Rasterline) : t :=
  mk (Vector.append (buffer self) value).
Definition is_empty (self : t) : bool := Vector.is_empty (buffer self).
Definition has_items (self : t) : bool := Vector.has_items (buffer self).
Definition is_full (self : t) : bool := Vector.size (buffer self) =? BufferSize.
Definition clear (self : t) : t := mk (Vector.clear (buffer self)).
End Def.
End Rasterlines.

(** ** Statistics *)

(** Modelled from the spec: the statistics collector ([rasterizer_stats.hh]
    is not among the sources).  Six counters, each advanced by one by the
    [increase_*] call of its name. *)
Module Stats.
Record t : Type := mk {
  triangles : Z;
  discarded_triangles : Z;
  rasterlines : Z;
  discarded_rasterlines : Z;
  clamped_rasterlines : Z;
  flushes : Z
}.

Definition zero : t := mk 0 0 0 0 0 0.

Definition increase_triangles (s : t) : t :=
  mk (triangles s + 1) (discarded_triangles s) (rasterlines s)
     (discarded_rasterlines s) (clamped_rasterlines s) (flushes s).
Definition increase_discarded_triangles (s : t) : t :=
  mk (triangles s) (discarded_triangles s + 1) (rasterlines s)
     (discarded_rasterlines s) (clamped_rasterlines s) (flushes s).
Definition increase_rasterlines (s : t) : t :=
  mk (triangles s) (discarded_triangles s) (rasterlines s + 1)
     (discarded_rasterlines s) (clamped_rasterlines s) (flushes s).
Definition increase_discarded_rasterlines (s : t) : t :=
  mk (triangles s) (discarded_triangles s) (rasterlines s)
     (discarded_rasterlines s + 1) (clamped_rasterlines s) (flushes s).
Definition increase_clamped_rasterlines (s : t) : t :=
  mk (triangles s) (discarded_triangles s) (rasterlines s)
     (discarded_rasterlines s) (clamped_rasterlines s + 1) (flushes s).
Definition increase_flushes (s : t) : t :=
  mk (triangles s) (discarded_triangles s) (rasterlines s)
     (discarded_rasterlines s) (clamped_rasterlines s) (flushes s + 1).
End Stats.

(** ** Clamping method *)

(** The interface of [rasterizer_clamping.hh] as the rasterizer uses it; the
    rasterizer is verified for an arbitrary implementation. *)
Module ClampingMethod.
Record t : Type := mk {
  scanline_for : float -> Z;
  column_for : float -> Z;
  distance_to_scanline_anchor : float -> float;
  distance_to_column_anchor : float -> float
}.
End ClampingMethod.

(** Modelled from the spec: a clamping method whose anchor is the pixel centre
    ([CenterPixelClampingMethod] itself is not among the sources).  An index
    is the first row or column whose centre is not before the coordinate; the
    distance is the offset from the coordinate to that centre.  It is used for
    concrete runs only. *)
Module CenterPixelClampingMethod.
Definition half : float := F.make 1 (-1).
Definition one_and_half : float := F.make 3 (-1).

Definition to_fract (value : float) : float := F.sub value (F.floor value).

Definition round (value : float) : Z :=
  if F.gtb (to_fract value) half then F.ceil_int value else F.floor_int value.

Definition distance_to_anchor (value : float) : float :=
  let fract := to_fract value in
  if F.leb fract half then F.sub half fract else F.sub one_and_half fract.

Definition method : ClampingMethod.t :=
  ClampingMethod.mk round round distance_to_anchor distance_to_anchor.
End CenterPixelClampingMethod.

(** ** The rasterizer *)

(** A C-style [for (v = lo; v < hi; v++)]: the values the loop variable
    takes. *)
Definition rows (lo hi : Z) : list Z :=
  map (fun k => lo + Z.of_nat k) (seq 0 (Z.to_nat (hi - lo))).

Module Rasterizer.
Section Def.

(** Template parameters: the shaders (with the types they fix), the number of
    rasterlines to buffer and, as a member, the clamping method. *)
Context {VertexInputType : Type} {InterfaceInnerType : Type}
        {InnerOps : Interpolable InterfaceInnerType}.
Variable vertex_shader_ : VertexInputType -> VertexOut InterfaceInnerType.
Variable fragment_shader_ : InterfaceInnerType -> float4.t.
Variable RasterlinesSize : Z.
Variable clamping_method : ClampingMethod.t.

Definition VertexOutputType : Type := VertexOut InterfaceInnerType.
Definition RasterlineType : Type := Rasterline.t InterfaceInnerType.

Record t : Type := mk {
  rasterlines_ : Rasterlines.t RasterlineType;
  image_buffer_ : ImBuf.t;
  stats : Stats.t
}.

Definition with_stats (f : Stats.t -> Stats.t) (self : t) : t :=
  mk (rasterlines_ self) (image_buffer_ self) (f (stats self)).

(** [explicit Rasterizer(ImBuf *image_buffer)]: [rasterlines_] is
    default-constructed, the statistics start at zero. *)
Definition new (image_buffer : ImBuf.t) (default : RasterlineType) : t :=
  mk (Rasterlines.new RasterlinesSize default) image_buffer Stats.zero.

(** *** [render_rasterline] *)

(** One turn of the column loop, at column [x] with fragment input [data].
    [pixel_index] and [pixel_index * 4] are computed in [uint32_t]. *)
Definition render_pixel (rasterline : RasterlineType) (x : Z)
    (data : InterfaceInnerType) (im : ImBuf.t) : ImBuf.t :=
  let pixel_index :=
    wrap32 (wrap32 (Rasterline.y rasterline * wrap32 (ImBuf.x im)) + x) in
  let fragment_out := fragment_shader_ data in
  ImBuf.copy_v4_v4 im (wrap32 (pixel_index * 4)) fragment_out.

(** [n] turns of the loop [for (x = start_x; x < end_x; x++)]. *)
Fixpoint render_columns (n : nat) (rasterline : RasterlineType) (x : Z)
    (data : InterfaceInnerType) (im : ImBuf.t) : ImBuf.t :=
  match n with
  | O => im
  | S n' =>
      let im := render_pixel rasterline x data im in
      render_columns n' rasterline (x + 1)
        (inner_add data (Rasterline.delta_step rasterline)) im
  end.

Definition render_rasterline (rasterline : RasterlineType) (self : t) : t :=
  let n := Z.to_nat (Rasterline.end_x rasterline - Rasterline.start_x rasterline) in
  mk (rasterlines_ self)
     (render_columns n rasterline (Rasterline.start_x rasterline)
        (Rasterline.start_data rasterline) (image_buffer_ self))
     (stats self).

(** *** [flush] and [append] *)

Definition flush (self : t) : t :=
  if Rasterlines.is_empty (rasterlines_ self) then self
  else
    let self := with_stats Stats.increase_flushes self in
    let self :=
      fold_left (fun s rasterline => render_rasterline rasterline s)
                (Rasterlines.buffer (rasterlines_ self)) self in
    mk (Rasterlines.clear (rasterlines_ self)) (image_buffer_ self) (stats self).

Definition append (rasterline : RasterlineType) (self : t) : t :=
  let self :=
    mk (Rasterlines.append (rasterlines_ self) rasterline)
       (image_buffer_ self) (stats self) in
  if Rasterlines.is_full RasterlinesSize (rasterlines_ self) then flush self
  else self.

(** *** [clamped_rasterline] *)

Definition clamped_rasterline (y : Z) (start_x end_x : float)
    (start_data end_data : InterfaceInnerType) (self : t)
  : option RasterlineType * t :=
  let self := with_stats Stats.increase_rasterlines self in
  if F.geb start_x end_x then
    (None, with_stats Stats.increase_discarded_rasterlines self)
  else if F.ltb end_x (F.of_int 0) then
    (None, with_stats Stats.increase_discarded_rasterlines self)
  else if F.geb start_x (F.of_int (ImBuf.x (image_buffer_ self))) then
    (None, with_stats Stats.increase_discarded_rasterlines self)
  else
    let add_x :=
      inner_div (inner_sub end_data start_data) (F.sub end_x start_x) in
    let is_clamped := false in
    let start_xi := ClampingMethod.column_for clamping_method start_x in
    let delta_to_anchor :=
      ClampingMethod.distance_to_column_anchor clamping_method start_x in
    let '(delta_to_anchor, start_xi, is_clamped) :=
      if start_xi <? 0
      then (F.add delta_to_anchor (F.of_int (- start_xi)), 0, true)
      else (delta_to_anchor, start_xi, is_clamped) in
    let start_data := inner_add start_data (inner_mul add_x delta_to_anchor) in
    let end_xi := wrap32 (ClampingMethod.column_for clamping_method end_x) in
    let '(end_xi, is_clamped) :=
      if end_xi >? wrap32 (ImBuf.x (image_buffer_ self))
      then (wrap32 (ImBuf.x (image_buffer_ self)), true)
      else (end_xi, is_clamped) in
    let self :=
      if is_clamped
      then with_stats Stats.increase_clamped_rasterlines self
      else self in
    (Some (Rasterline.mk (wrap32 y) (wrap32 start_xi) end_xi start_data add_x),
     self).

(** *** [calc_vertex_output_data] and [order_triangle_vertices] *)

Definition calc_vertex_output_data (from to : VertexOutputType) : VertexOutputType :=
  let num_rasterlines :=
    F.sub (float2.y (VertexOutInterface.coord to))
          (float2.y (VertexOutInterface.coord from)) in
  if F.eqb num_rasterlines F.zero then VertexOutInterface.sub to from
  else VertexOutInterface.div (VertexOutInterface.sub to from) num_rasterlines.

(** [std::array<VertexOutputType, 3>]. *)
Definition vertex_array : Type :=
  (VertexOutputType * VertexOutputType * VertexOutputType)%type.

Definition at_index (vertex_out : vertex_array) (i : nat) : VertexOutputType :=
  let '(v0, v1, v2) := vertex_out in
  match i with O => v0 | S O => v1 | _ => v2 end.

Definition coord_y (v : VertexOutputType) : float :=
  float2.y (VertexOutInterface.coord v).
Definition coord_x (v : VertexOutputType) : float :=
  float2.x (VertexOutInterface.coord v).

(** The result is an array of pointers into [vertex_out]; a pointer is the
    index it points at. *)
Definition order_triangle_vertices (vertex_out : vertex_array) : nat * nat * nat :=
  let y i := coord_y (at_index vertex_out i) in
  let sorted0 := 0%nat in
  let sorted0 := if F.ltb (y 1%nat) (y sorted0) then 1%nat else sorted0 in
  let sorted0 := if F.ltb (y 2%nat) (y sorted0) then 2%nat else sorted0 in
  let sorted2 := 0%nat in
  let sorted2 := if F.gtb (y 1%nat) (y sorted2) then 1%nat else sorted2 in
  let sorted2 := if F.gtb (y 2%nat) (y sorted2) then 2%nat else sorted2 in
  if F.eqb (y sorted0) (y sorted2) then (0%nat, 1%nat, 2%nat)
  else
    let other i := negb (Nat.eqb sorted0 i) && negb (Nat.eqb sorted2 i) in
    let sorted1 :=
      if other 0%nat then 0%nat
      else if other 1%nat then 1%nat
      else if other 2%nat then 2%nat
      else 0%nat in
    (sorted0, sorted1, sorted2).

(** *** [rasterize_triangle] *)

(** The two edge cursors and the rasterizer, as the scanline loops update
    them. *)
Record scan : Type := mk_scan {
  scan_left : VertexOutputType;
  scan_right : VertexOutputType;
  scan_self : t
}.

(** Body of both scanline loops at row [v]. *)
Definition scanline (left_add right_add : VertexOutputType) (s : scan) (v : Z) : scan :=
  let self :=
    if (0 <=? v) && (v <? ImBuf.y (image_buffer_ (scan_self s))) then
      let '(rasterline, self) :=
        clamped_rasterline v (coord_x (scan_left s)) (coord_x (scan_right s))
          (VertexOutInterface.data (scan_left s)) (VertexOutInterface.data (scan_right s))
          (scan_self s) in
      match rasterline with
      | Some rasterline => append rasterline self
      | None => self
      end
    else scan_self s in
  mk_scan (VertexOutInterface.add_assign (scan_left s) left_add)
          (VertexOutInterface.add_assign (scan_right s) right_add)
          self.

(** [for (...; v < hi; v++)] started at [v = lo]: the state after the loop and
    the value [v] ends with. *)
Definition scanlines (left_add right_add : VertexOutputType) (lo hi : Z) (s : scan)
  : scan * Z :=
  (fold_left (scanline left_add right_add) (rows lo hi) s, Z.max lo hi).

(** The three sorted vertices, dereferenced. *)
Definition sorted_vertices (vertex_out : vertex_array)
  : VertexOutputType * VertexOutputType * VertexOutputType :=
  let '(i0, i1, i2) := order_triangle_vertices vertex_out in
  (at_index vertex_out i0, at_index vertex_out i1, at_index vertex_out i2).

Definition min_v (vertex_out : vertex_array) : Z :=
  let '(top, _, _) := sorted_vertices vertex_out in
  ClampingMethod.scanline_for clamping_method (coord_y top).
Definition mid_v (vertex_out : vertex_array) : Z :=
  let '(_, mid, _) := sorted_vertices vertex_out in
  ClampingMethod.scanline_for clamping_method (coord_y mid).
Definition max_v (vertex_out : vertex_array) : Z :=
  let '(_, _, bottom) := sorted_vertices vertex_out in
  ClampingMethod.scanline_for clamping_method (coord_y bottom) - 1.

(** Edge set-up: the cursors at the first sampled scanline and the two
    per-scanline increments. *)
Definition edge_setup (vertex_out : vertex_array)
  : VertexOutputType * VertexOutputType * VertexOutputType * VertexOutputType :=
  let '(top, mid, bottom) := sorted_vertices vertex_out in
  let left_ := top in
  let right_ := top in
  let '(left_target, right_target) :=
    if F.ltb (coord_x mid) (coord_x bottom) then (mid, bottom) else (bottom, mid) in
  let left_add := calc_vertex_output_data left_ left_target in
  let right_add := calc_vertex_output_data right_ right_target in
  let '(left_add, right_add) :=
    if F.ltb (coord_x right_add) (coord_x left_add)
    then (right_add, left_add) else (left_add, right_add) in
  let distance_to_minline_anchor_point :=
    ClampingMethod.distance_to_scanline_anchor clamping_method (coord_y top) in
  let left_ :=
    VertexOutInterface.add_assign left_
      (VertexOutInterface.mul left_add distance_to_minline_anchor_point) in
  let right_ :=
    VertexOutInterface.add_assign right_
      (VertexOutInterface.mul right_add distance_to_minline_anchor_point) in
  (left_, right_, left_add, right_add).

(** The hand-off at the middle vertex: one of the two branches restarts at
    [sorted_vertices[1]] towards [sorted_vertices[2]].  [abs] is the absolute
    value of a [float]. *)
Definition edge_handoff (vertex_out : vertex_array)
    (left_ right_ left_add right_add : VertexOutputType)
  : VertexOutputType * VertexOutputType * VertexOutputType * VertexOutputType :=
  let '(_, mid, bottom) := sorted_vertices vertex_out in
  let distance_to_midline_anchor_point :=
    ClampingMethod.distance_to_scanline_anchor clamping_method (coord_y mid) in
  let distance_to_left := F.abs (F.sub (coord_x left_) (coord_x mid)) in
  let distance_to_right := F.abs (F.sub (coord_x right_) (coord_x mid)) in
  if F.ltb distance_to_left distance_to_right then
    let left_ := mid in
    let left_add := calc_vertex_output_data left_ bottom in
    let left_ :=
      VertexOutInterface.add_assign left_
        (VertexOutInterface.mul left_add distance_to_midline_anchor_point) in
    (left_, right_, left_add, right_add)
  else
    let right_ := mid in
    let right_add := calc_vertex_output_data right_ bottom in
    let right_ :=
      VertexOutInterface.add_assign right_
        (VertexOutInterface.mul right_add distance_to_midline_anchor_point) in
    (left_, right_, left_add, right_add).

(** Rows of the first loop, "from min_v to mid_v", and of the second, which
    goes on from the value [v] ended with, "from mid_v to max_v". *)
Definition phase1_rows (vertex_out : vertex_array) : list Z :=
  rows (min_v vertex_out) (mid_v vertex_out).
Definition phase2_rows (vertex_out : vertex_array) : list Z :=
  rows (Z.max (min_v vertex_out) (mid_v vertex_out)) (max_v vertex_out).

Definition rasterize_triangle (vertex_out : vertex_array) (self : t) : t :=
  let '(left_, right_, left_add, right_add) := edge_setup vertex_out in
  let '(s, v) :=
    scanlines left_add right_add (min_v vertex_out) (mid_v vertex_out)
      (mk_scan left_ right_ self) in
  let '(left_, right_, left_add, right_add) :=
    edge_handoff vertex_out (scan_left s) (scan_right s) left_add right_add in
  let '(s, v) :=
    scanlines left_add right_add v (max_v vertex_out)
      (mk_scan left_ right_ (scan_self s)) in
  scan_self s.

(** *** [draw_triangle] *)

Definition triangle_not_visible (vertex_out : vertex_array) (im : ImBuf.t) : bool :=
  let '(p1_out, p2_out, p3_out) := vertex_out in
  (F.ltb (coord_x p1_out) F.zero && F.ltb (coord_x p2_out) F.zero
   && F.ltb (coord_x p3_out) F.zero)
  || (F.ltb (coord_y p1_out) F.zero && F.ltb (coord_y p2_out) F.zero
      && F.ltb (coord_y p3_out) F.zero)
  || (F.geb (coord_x p1_out) (F.of_int (ImBuf.x im))
      && F.geb (coord_x p2_out) (F.of_int (ImBuf.x im))
      && F.geb (coord_x p3_out) (F.of_int (ImBuf.x im)))
  || (F.geb (coord_y p1_out) (F.of_int (ImBuf.y im))
      && F.geb (coord_y p2_out) (F.of_int (ImBuf.y im))
      && F.geb (coord_y p3_out) (F.of_int (ImBuf.y im))).

Definition draw_triangle (p1 p2 p3 : VertexInputType) (self : t) : t :=
  let self := with_stats Stats.increase_triangles self in
  let vertex_out : vertex_array :=
    (vertex_shader_ p1, vertex_shader_ p2, vertex_shader_ p3) in
  if triangle_not_visible vertex_out (image_buffer_ self) then
    with_stats Stats.increase_discarded_triangles self
  else rasterize_triangle vertex_out self.

(** *** Vocabulary of the statements *)

(** The number of pending rasterlines. *)
Definition pending_size (self : t) : Z :=
  Vector.size (Rasterlines.buffer (rasterlines_ self)).

(** The condition under which [clamped_rasterline] gives up, as the source
    tests it. *)
Definition discards (self : t) (start_x end_x : float) : bool :=
  F.geb start_x end_x
  || F.ltb end_x (F.of_int 0)
  || F.geb start_x (F.of_int (ImBuf.x (image_buffer_ self))).

(** Whether one of the two ends of a run is moved onto the buffer. *)
Definition adjusted (self : t) (start_x end_x : float) : bool :=
  (ClampingMethod.column_for clamping_method start_x <? 0)
  || (wrap32 (ClampingMethod.column_for clamping_method end_x)
      >? wrap32 (ImBuf.x (image_buffer_ self))).

(** A run of [append] calls. *)
Definition appends (rasterlines : list RasterlineType) (self : t) : t :=
  fold_left (fun s rasterline => append rasterline s) rasterlines self.

(** The calls a user of the rasterizer makes, and a sequence of them. *)
Inductive call : Type :=
  | DrawTriangle (p1 p2 p3 : VertexInputType)
  | Flush.

Definition perform (c : call) (self : t) : t :=
  match c with
  | DrawTriangle p1 p2 p3 => draw_triangle p1 p2 p3 self
  | Flush => flush self
  end.

Definition run (calls : list call) (self : t) : t :=
  fold_left (fun s c => perform c s) calls self.

(** Two rasterizers that agree on everything but the counters other than the
    flush counter. *)
Definition same_core (a b : t) : Prop :=
  rasterlines_ a = rasterlines_ b
  /\ image_buffer_ a = image_buffer_ b
  /\ Stats.flushes (stats a) = Stats.flushes (stats b).

(** A rasterline that lies on a buffer of [width] by [height] pixels, but for
    the order of its two columns. *)
Definition within (width height : Z) (rasterline : RasterlineType) : Prop :=
  0 <= Rasterline.y rasterline < height
  /\ 0 <= Rasterline.start_x rasterline
  /\ Rasterline.end_x rasterline <= width.


End Def.
End Rasterizer.

(** ** A concrete instantiation

    The shaders of the usage example in the header: the vertex shader passes
    the coordinate through and stores [1.0] as vertex data, the fragment
    shader writes [float4(input, input, input, 1.0)]. *)
Module Usage.
Definition VertexInput : Type := float2.t.

Definition vertex (input : VertexInput) : VertexOut float :=
  VertexOutInterface.mk input (F.of_int 1).

Definition fragment (input : float) : float4.t :=
  float4.mk input input input (F.of_int 1).

(** A zero-filled image of [w] by [h] pixels with four channels. *)
Definition image (w h : Z) : ImBuf.t := ImBuf.mk w h 4 (fun _ => F.zero).

Definition point (x y : Z) : VertexInput := float2.mk (F.of_int x) (F.of_int y).

Definition default_rasterline : Rasterline.t float :=
  Rasterline.mk 0 0 0 F.zero F.zero.

(** A rasterizer with an empty rasterline buffer on [image w h]. *)
Definition flushed (w h : Z) : Rasterizer.t (InterfaceInnerType := float) :=
  Rasterizer.mk (Rasterlines.mk []) (image w h) Stats.zero.

Definition draw_triangle (size : Z) :=
  Rasterizer.draw_triangle vertex fragment size CenterPixelClampingMethod.method.

(** The rows, first and last columns of the buffered rasterlines. *)
Definition pending (self : Rasterizer.t (InterfaceInnerType := float))
  : list (Z * Z * Z) :=
  map (fun l => (Rasterline.y l, Rasterline.start_x l, Rasterline.end_x l))
      (Rasterlines.buffer (Rasterizer.rasterlines_ self)).
End Usage.

(** ** Further vocabulary

    The destructor, and the notions the statements about batching, counting
    and the extent of the writes are phrased with. *)

Definition is_nan (a : float) : bool :=
  match a with S754_nan => true | _ => false end.

Module Pipeline.
Section Def.
Context {VertexInputType : Type} {InterfaceInnerType : Type}
        {InnerOps : Interpolable InterfaceInnerType}.
Variable fragment_shader_ : InterfaceInnerType -> float4.t.

(** [virtual ~Rasterizer()]: the destructor calls [flush]. *)
Definition destroy (self : Rasterizer.t (InterfaceInnerType := InterfaceInnerType))
  : Rasterizer.t :=
  Rasterizer.flush fragment_shader_ self.

(** What [render_rasterline] does to the image. *)
Definition render_image (rasterline : Rasterizer.RasterlineType) (im : ImBuf.t)
  : ImBuf.t :=
  Rasterizer.render_columns fragment_shader_
    (Z.to_nat (Rasterline.end_x rasterline - Rasterline.start_x rasterline))
    rasterline (Rasterline.start_x rasterline) (Rasterline.start_data rasterline) im.

(** Rendering a list of rasterlines, first to last, straight onto an image. *)
Definition render_all (rasterlines : list Rasterizer.RasterlineType) (im : ImBuf.t)
  : ImBuf.t :=
  fold_left (fun im rasterline => render_image rasterline im) rasterlines im.

(** The image once everything that is pending has been rendered. *)
Definition settled (self : Rasterizer.t (InterfaceInnerType := InterfaceInnerType))
  : ImBuf.t :=
  render_all (Rasterlines.buffer (Rasterizer.rasterlines_ self))
             (Rasterizer.image_buffer_ self).

(** Two rasterizers with the same image once everything pending is rendered
    and the same counters, the flush counter apart. *)
Definition same_outcome (a b : Rasterizer.t (InterfaceInnerType := InterfaceInnerType))
  : Prop :=
  settled a = settled b
  /\ Stats.triangles (Rasterizer.stats a) = Stats.triangles (Rasterizer.stats b)
  /\ Stats.discarded_triangles (Rasterizer.stats a)
     = Stats.discarded_triangles (Rasterizer.stats b)
  /\ Stats.rasterlines (Rasterizer.stats a) = Stats.rasterlines (Rasterizer.stats b)
  /\ Stats.discarded_rasterlines (Rasterizer.stats a)
     = Stats.discarded_rasterlines (Rasterizer.stats b)
  /\ Stats.clamped_rasterlines (Rasterizer.stats a)
     = Stats.clamped_rasterlines (Rasterizer.stats b).

(** No counter of [b] is behind the same counter of [a]. *)
Definition counters_advance (a b : Stats.t) : Prop :=
  Stats.triangles a <= Stats.triangles b
  /\ Stats.discarded_triangles a <= Stats.discarded_triangles b
  /\ Stats.rasterlines a <= Stats.rasterlines b
  /\ Stats.discarded_rasterlines a <= Stats.discarded_rasterlines b
  /\ Stats.clamped_rasterlines a <= Stats.clamped_rasterlines b
  /\ Stats.flushes a <= Stats.flushes b.

(** Between [a] and [b] no more triangles were discarded than seen, and no
    more rasterlines discarded or clamped than seen. *)
Definition counters_consistent (a b : Stats.t) : Prop :=
  Stats.discarded_triangles b - Stats.discarded_triangles a
  <= Stats.triangles b - Stats.triangles a
  /\ (Stats.discarded_rasterlines b - Stats.discarded_rasterlines a)
     + (Stats.clamped_rasterlines b - Stats.clamped_rasterlines a)
     <= Stats.rasterlines b - Stats.rasterlines a.

(** The guard of the scanline loops: a row of a buffer of [height] rows. *)
Definition inside (height : Z) (v : Z) : bool := (0 <=? v) && (v <? height).

(** The number of [draw_triangle] calls in a sequence of calls. *)
Definition draws (calls : list (Rasterizer.call (VertexInputType := VertexInputType)))
  : Z :=
  Z.of_nat
    (length (filter (fun c => match c with
                              | Rasterizer.DrawTriangle _ _ _ => true
                              | Rasterizer.Flush => false
                              end) calls)).

(** An element offset that lies in the float storage of an image of [width]
    by [height] pixels with four floats each. *)
Definition in_storage (width height : Z) (i : Z) : Prop :=
  0 <= i < width * height * 4.

End Def.
End Pipeline.

(** The runs of a triangle: what the scanline loops hand to
    [clamped_rasterline], read off the two edge cursors. *)
Module Runs.
Section Def.
Context {InterfaceInnerType : Type} {InnerOps : Interpolable InterfaceInnerType}.
Variable clamping_method : ClampingMethod.t.

(** An edge cursor after [n] turns of a scanline loop: [cursor += add], [n]
    times. *)
Definition advance (add : VertexOut InterfaceInnerType) (n : nat)
    (cursor : VertexOut InterfaceInnerType) : VertexOut InterfaceInnerType :=
  Nat.iter n (fun c => VertexOutInterface.add_assign c add) cursor.

(** The rows of one scanline loop, each with the two cursors it starts with. *)
Fixpoint steps (left_add right_add : VertexOut InterfaceInnerType) (vs : list Z)
    (left_ right_ : VertexOut InterfaceInnerType)
  : list (Z * VertexOut InterfaceInnerType * VertexOut InterfaceInnerType) :=
  match vs with
  | [] => []
  | v :: vs' =>
      (v, left_, right_)
      :: steps left_add right_add vs'
           (VertexOutInterface.add_assign left_ left_add)
           (VertexOutInterface.add_assign right_ right_add)
  end.

(** The rows of both scanline loops of [rasterize_triangle], with their
    cursors: the first loop from the edge set-up, the second from the
    hand-off at the cursors the first loop ends with. *)
Definition triangle_steps
    (vertex_out : Rasterizer.vertex_array (InterfaceInnerType := InterfaceInnerType))
  : list (Z * VertexOut InterfaceInnerType * VertexOut InterfaceInnerType) :=
  let '(left_, right_, left_add, right_add) :=
    Rasterizer.edge_setup clamping_method vertex_out in
  let vs1 := Rasterizer.phase1_rows clamping_method vertex_out in
  let '(left2, right2, left_add2, right_add2) :=
    Rasterizer.edge_handoff clamping_method vertex_out
      (advance left_add (length vs1) left_) (advance right_add (length vs1) right_)
      left_add right_add in
  steps left_add right_add vs1 left_ right_
  ++ steps left_add2 right_add2
       (Rasterizer.phase2_rows clamping_method vertex_out) left2 right2.

(** The two ends of a run are numbers and the clamping method keeps to its
    contract at them: [column_for] is monotone, gives a column that is not
    negative for a coordinate that is not negative, a column that is at most
    the width for a coordinate below the width, and an [int]. *)
Definition respects (width : Z) (start_x end_x : float) : Prop :=
  is_nan start_x = false
  /\ is_nan end_x = false
  /\ (F.ltb start_x end_x = true ->
      ClampingMethod.column_for clamping_method start_x
      <= ClampingMethod.column_for clamping_method end_x)
  /\ (F.ltb end_x (F.of_int 0) = false ->
      0 <= ClampingMethod.column_for clamping_method end_x)
  /\ (F.geb start_x (F.of_int width) = false ->
      ClampingMethod.column_for clamping_method start_x <= width)
  /\ ClampingMethod.column_for clamping_method end_x < 2 ^ 31.

(** [respects] on every row of the buffer among the rows of a triangle. *)
Definition triangle_respects (width height : Z)
    (vertex_out : Rasterizer.vertex_array (InterfaceInnerType := InterfaceInnerType))
  : Prop :=
  Forall (fun step : Z * VertexOut InterfaceInnerType * VertexOut InterfaceInnerType =>
            let '(v, left_, right_) := step in
            Pipeline.inside height v = true ->
            respects width (Rasterizer.coord_x left_) (Rasterizer.coord_x right_))
         (triangle_steps vertex_out).

(** A rasterline that lies on a buffer of [width] by [height] pixels with its
    columns in order. *)
Definition ordered (width height : Z)
    (rasterline : Rasterizer.RasterlineType (InterfaceInnerType := InterfaceInnerType))
  : Prop :=
  0 <= Rasterline.y rasterline < height
  /\ 0 <= Rasterline.start_x rasterline
  /\ Rasterline.start_x rasterline <= Rasterline.end_x rasterline
  /\ Rasterline.end_x rasterline <= width.

End Def.
End Runs.

(** * Properties *)

Unset Implicit Arguments.

(** ** Interface data of the vertex stage *)

Section VertexOutInterfaceProperties.
Context {Inner : Type} {InnerOps : Interpolable Inner}.
Implicit Types r other : VertexOut Inner.

Lemma add_assign_componentwise r other :
  VertexOutInterface.coord (VertexOutInterface.add_assign r other)
  = float2.add (VertexOutInterface.coord r) (VertexOutInterface.coord other)
  /\ VertexOutInterface.data (VertexOutInterface.add_assign r other)
     = inner_add (VertexOutInterface.data r) (VertexOutInterface.data other).
Proof. split; reflexivity. Qed.

Lemma sub_componentwise r other :
  VertexOutInterface.coord (VertexOutInterface.sub r other)
  = float2.sub (VertexOutInterface.coord r) (VertexOutInterface.coord other)
  /\ VertexOutInterface.data (VertexOutInterface.sub r other)
     = inner_sub (VertexOutInterface.data r) (VertexOutInterface.data other).
Proof. split; reflexivity. Qed.

Lemma div_componentwise r (s : float) :
  VertexOutInterface.coord (VertexOutInterface.div r s)
  = float2.div (VertexOutInterface.coord r) s
  /\ VertexOutInterface.data (VertexOutInterface.div r s)
     = inner_div (VertexOutInterface.data r) s.
Proof. split; reflexivity. Qed.

(** [operator*] hands back its left operand, whatever the multiplier. *)
Lemma mul_returns_self r (s : float) : VertexOutInterface.mul r s = r.
Proof. reflexivity. Qed.

End VertexOutInterfaceProperties.

(** C2, at the record with [coord = (1, 2)] and [data = 3] and the scalar
    [2]: [operator*] returns the record unchanged, so the coordinate of the
    product is [(1, 2)] and its data is [3], where scalar multiplication asks
    for [(2, 4)] and [6]. *)
Theorem mul_not_scalar_multiplication :
  let r := VertexOutInterface.mk (float2.mk (F.of_int 1) (F.of_int 2)) (F.of_int 3) in
  let s := F.of_int 2 in
  VertexOutInterface.mul r s = r
  /\ float2.mul (VertexOutInterface.coord r) s = float2.mk (F.of_int 2) (F.of_int 4)
  /\ VertexOutInterface.coord (VertexOutInterface.mul r s)
     <> float2.mul (VertexOutInterface.coord r) s
  /\ inner_mul (VertexOutInterface.data r) s = F.of_int 6
  /\ VertexOutInterface.data (VertexOutInterface.mul r s)
     <> inner_mul (VertexOutInterface.data r) s.
Proof.
  cbv zeta. repeat split; try reflexivity; vm_compute; discriminate.
Qed.

(** ** The rasterizer *)

Lemma in_rows (lo hi v : Z) : In v (rows lo hi) <-> lo <= v < hi.
Proof.
  unfold rows. rewrite in_map_iff. split.
  - intros [k [<- Hk]]. apply in_seq in Hk. lia.
  - intros Hv. exists (Z.to_nat (v - lo)). split; [lia|].
    apply in_seq. lia.
Qed.

Lemma wrap32_small (z : Z) : 0 <= z < 2 ^ 32 -> wrap32 z = z.
Proof. intros Hz. unfold wrap32. apply Z.mod_small, Hz. Qed.

Lemma wrap32_range (z : Z) : 0 <= wrap32 z < 2 ^ 32.
Proof. unfold wrap32. apply Z.mod_pos_bound. reflexivity. Qed.

Section RasterizerProperties.
Context {VertexInputType Inner : Type} {InnerOps : Interpolable Inner}.
Variable vertex_shader_ : VertexInputType -> VertexOut Inner.
Variable fragment_shader_ : Inner -> float4.t.
Variable RasterlinesSize : Z.
Variable clamping_method : ClampingMethod.t.

Local Abbreviation rasterizer := (Rasterizer.t (InterfaceInnerType := Inner)).
Local Abbreviation rasterline := (Rasterizer.RasterlineType (InterfaceInnerType := Inner)).
Local Abbreviation render_rasterline := (Rasterizer.render_rasterline fragment_shader_).
Local Abbreviation flush := (Rasterizer.flush fragment_shader_).
Local Abbreviation append := (Rasterizer.append fragment_shader_ RasterlinesSize).
Local Abbreviation clamped_rasterline := (Rasterizer.clamped_rasterline clamping_method).
Local Abbreviation scanline :=
  (Rasterizer.scanline fragment_shader_ RasterlinesSize clamping_method).
Local Abbreviation rasterize_triangle :=
  (Rasterizer.rasterize_triangle fragment_shader_ RasterlinesSize clamping_method).
Local Abbreviation draw_triangle :=
  (Rasterizer.draw_triangle vertex_shader_ fragment_shader_ RasterlinesSize
     clamping_method).

Implicit Types self s : rasterizer.
Implicit Types r : rasterline.

(** *** [clamped_rasterline] *)

(** [clamped_rasterline] touches the statistics only. *)
Lemma clamped_rasterline_frame y start_x end_x (start_data end_data : Inner) self :
  let self' := snd (clamped_rasterline y start_x end_x start_data end_data self) in
  Rasterizer.rasterlines_ self' = Rasterizer.rasterlines_ self
  /\ Rasterizer.image_buffer_ self' = Rasterizer.image_buffer_ self
  /\ Stats.triangles (Rasterizer.stats self') = Stats.triangles (Rasterizer.stats self)
  /\ Stats.discarded_triangles (Rasterizer.stats self')
     = Stats.discarded_triangles (Rasterizer.stats self)
  /\ Stats.flushes (Rasterizer.stats self') = Stats.flushes (Rasterizer.stats self)
  /\ Stats.rasterlines (Rasterizer.stats self')
     = Stats.rasterlines (Rasterizer.stats self) + 1.
Proof.
  unfold Rasterizer.clamped_rasterline.
  destruct (F.geb start_x end_x); [cbn; tauto|].
  destruct (F.ltb end_x (F.of_int 0)); [cbn; tauto|].
  destruct (F.geb start_x _); [cbn; tauto|].
  destruct (_ <? 0); destruct (_ >? _); cbn; tauto.
Qed.

(** C6: [clamped_rasterline] returns no rasterline and advances the
    discarded-rasterline counter by one exactly when [start_x >= end_x], or
    [end_x < 0], or [start_x >= buffer_width]; in every other case it returns
    a rasterline and leaves that counter alone. *)
Theorem clamped_rasterline_discards_exactly
    y start_x end_x (start_data end_data : Inner) self :
  let result := clamped_rasterline y start_x end_x start_data end_data self in
  if Rasterizer.discards self start_x end_x
  then fst result = None
       /\ Stats.discarded_rasterlines (Rasterizer.stats (snd result))
          = Stats.discarded_rasterlines (Rasterizer.stats self) + 1
  else (exists r, fst result = Some r)
       /\ Stats.discarded_rasterlines (Rasterizer.stats (snd result))
          = Stats.discarded_rasterlines (Rasterizer.stats self).
Proof.
  unfold Rasterizer.discards, Rasterizer.clamped_rasterline.
  destruct (F.geb start_x end_x); [cbn; tauto|].
  destruct (F.ltb end_x (F.of_int 0)); [cbn; tauto|].
  cbn [orb Rasterizer.image_buffer_ Rasterizer.with_stats].
  destruct (F.geb start_x _); [cbn; tauto|].
  destruct (_ <? 0); destruct (_ >? _); cbn; eauto.
Qed.

(** C7: a call of [clamped_rasterline] that produces a rasterline advances
    the clamped-rasterline counter by one when the start column, the end
    column or both are adjusted, and by nothing otherwise: never by more than
    one. *)
Theorem clamped_rasterline_counts_clamping_once
    y start_x end_x (start_data end_data : Inner) self :
  let result := clamped_rasterline y start_x end_x start_data end_data self in
  let before := Stats.clamped_rasterlines (Rasterizer.stats self) in
  let after := Stats.clamped_rasterlines (Rasterizer.stats (snd result)) in
  match fst result with
  | Some _ => after = before + (if Rasterizer.adjusted clamping_method self start_x end_x then 1 else 0)
  | None => after = before
  end
  /\ before <= after <= before + 1.
Proof.
  unfold Rasterizer.adjusted, Rasterizer.clamped_rasterline.
  destruct (F.geb start_x end_x); [cbn; lia|].
  destruct (F.ltb end_x (F.of_int 0)); [cbn; lia|].
  cbn [Rasterizer.image_buffer_ Rasterizer.with_stats].
  destruct (F.geb start_x _); [cbn; lia|].
  destruct (_ <? 0); destruct (_ >? _); cbn; lia.
Qed.

(** *** [render_rasterline], [flush] and [append] *)

Lemma copy_v4_v4_dims (im : ImBuf.t) offset v :
  ImBuf.x (ImBuf.copy_v4_v4 im offset v) = ImBuf.x im
  /\ ImBuf.y (ImBuf.copy_v4_v4 im offset v) = ImBuf.y im
  /\ ImBuf.channels (ImBuf.copy_v4_v4 im offset v) = ImBuf.channels im.
Proof. repeat split. Qed.

Lemma render_columns_dims n r x (data : Inner) (im : ImBuf.t) :
  let im' := Rasterizer.render_columns fragment_shader_ n r x data im in
  ImBuf.x im' = ImBuf.x im /\ ImBuf.y im' = ImBuf.y im
  /\ ImBuf.channels im' = ImBuf.channels im.
Proof.
  revert x data im. induction n as [|n IH]; intros x data im; cbn.
  - repeat split.
  - destruct (IH (x + 1) (inner_add data (Rasterline.delta_step r))
                 (Rasterizer.render_pixel fragment_shader_ r x data im))
      as (Hx & Hy & Hc).
    cbv zeta in Hx, Hy, Hc. rewrite Hx, Hy, Hc. repeat split.
Qed.

(** Rendering writes into the image and nothing else. *)
Lemma render_rasterline_frame r self :
  Rasterizer.rasterlines_ (render_rasterline r self) = Rasterizer.rasterlines_ self
  /\ Rasterizer.stats (render_rasterline r self) = Rasterizer.stats self
  /\ ImBuf.x (Rasterizer.image_buffer_ (render_rasterline r self))
     = ImBuf.x (Rasterizer.image_buffer_ self)
  /\ ImBuf.y (Rasterizer.image_buffer_ (render_rasterline r self))
     = ImBuf.y (Rasterizer.image_buffer_ self).
Proof.
  unfold Rasterizer.render_rasterline; cbn.
  pose proof (render_columns_dims
                (Z.to_nat (Rasterline.end_x r - Rasterline.start_x r)) r
                (Rasterline.start_x r) (Rasterline.start_data r)
                (Rasterizer.image_buffer_ self)) as H.
  cbv zeta in H. tauto.
Qed.

Lemma render_all_frame (rs : list rasterline) self :
  let self' := fold_left (fun s r => render_rasterline r s) rs self in
  Rasterizer.rasterlines_ self' = Rasterizer.rasterlines_ self
  /\ Rasterizer.stats self' = Rasterizer.stats self
  /\ ImBuf.x (Rasterizer.image_buffer_ self') = ImBuf.x (Rasterizer.image_buffer_ self)
  /\ ImBuf.y (Rasterizer.image_buffer_ self') = ImBuf.y (Rasterizer.image_buffer_ self).
Proof.
  revert self. induction rs as [|r rs IH]; intros self; cbn.
  - repeat split.
  - destruct (IH (render_rasterline r self)) as (H1 & H2 & H3 & H4).
    destruct (render_rasterline_frame r self) as (F1 & F2 & F3 & F4).
    cbv zeta in H1, H2, H3, H4.
    rewrite H1, H2, H3, H4, F1, F2, F3, F4. repeat split.
Qed.

Lemma is_empty_nil (T : Type) (v : Vector.t T) : Vector.is_empty v = true <-> v = [].
Proof.
  unfold Vector.is_empty, Vector.size. rewrite Z.eqb_eq.
  destruct v; cbn [length]; split; intros H; try reflexivity; try discriminate; lia.
Qed.

(** After [flush] nothing is pending. *)
Lemma flush_pending self :
  Rasterlines.buffer (Rasterizer.rasterlines_ (flush self)) = [].
Proof.
  unfold Rasterizer.flush.
  destruct (Rasterlines.is_empty _) eqn:He; [|reflexivity].
  apply is_empty_nil, He.
Qed.

(** [flush] counts itself once when something is pending and not at all when
    nothing is; it changes no other counter and keeps the image's extent. *)
Lemma flush_frame self :
  let self' := flush self in
  Stats.flushes (Rasterizer.stats self')
  = Stats.flushes (Rasterizer.stats self)
    + (if Rasterlines.is_empty (Rasterizer.rasterlines_ self) then 0 else 1)
  /\ Stats.triangles (Rasterizer.stats self') = Stats.triangles (Rasterizer.stats self)
  /\ Stats.discarded_triangles (Rasterizer.stats self')
     = Stats.discarded_triangles (Rasterizer.stats self)
  /\ Stats.rasterlines (Rasterizer.stats self') = Stats.rasterlines (Rasterizer.stats self)
  /\ Stats.discarded_rasterlines (Rasterizer.stats self')
     = Stats.discarded_rasterlines (Rasterizer.stats self)
  /\ Stats.clamped_rasterlines (Rasterizer.stats self')
     = Stats.clamped_rasterlines (Rasterizer.stats self)
  /\ ImBuf.x (Rasterizer.image_buffer_ self') = ImBuf.x (Rasterizer.image_buffer_ self)
  /\ ImBuf.y (Rasterizer.image_buffer_ self') = ImBuf.y (Rasterizer.image_buffer_ self).
Proof.
  unfold Rasterizer.flush.
  destruct (Rasterlines.is_empty _); [cbn; repeat split; lia|].
  cbv zeta.
  match goal with
  | |- context [fold_left ?f ?l ?a] =>
      destruct (render_all_frame l a) as (_ & H2 & H3 & H4);
      cbv zeta in H2, H3, H4; set (rendered := fold_left f l a) in *
  end.
  cbn [Rasterizer.stats Rasterizer.image_buffer_].
  rewrite H2, H3, H4. cbn. repeat split.
Qed.

(** [append] puts the rasterline at the end of the buffer and flushes when
    that makes the buffer's size equal to [RasterlinesSize]. *)
Lemma append_unfold r self :
  append r self
  = let self' :=
      Rasterizer.mk
        (Rasterlines.mk (Rasterlines.buffer (Rasterizer.rasterlines_ self) ++ [r]))
        (Rasterizer.image_buffer_ self) (Rasterizer.stats self) in
    if Rasterizer.pending_size self + 1 =? RasterlinesSize then flush self' else self'.
Proof.
  unfold Rasterizer.append, Rasterlines.is_full, Rasterlines.append, Vector.append,
    Rasterizer.pending_size, Vector.size.
  cbn [Rasterizer.rasterlines_ Rasterlines.buffer].
  rewrite length_app. cbn [length].
  replace (Z.of_nat (length (Rasterlines.buffer (Rasterizer.rasterlines_ self)) + 1))
    with (Z.of_nat (length (Rasterlines.buffer (Rasterizer.rasterlines_ self))) + 1)
    by lia.
  reflexivity.
Qed.

Lemma append_frame r self :
  let self' := append r self in
  Stats.triangles (Rasterizer.stats self') = Stats.triangles (Rasterizer.stats self)
  /\ Stats.discarded_triangles (Rasterizer.stats self')
     = Stats.discarded_triangles (Rasterizer.stats self)
  /\ Stats.rasterlines (Rasterizer.stats self') = Stats.rasterlines (Rasterizer.stats self)
  /\ Stats.discarded_rasterlines (Rasterizer.stats self')
     = Stats.discarded_rasterlines (Rasterizer.stats self)
  /\ Stats.clamped_rasterlines (Rasterizer.stats self')
     = Stats.clamped_rasterlines (Rasterizer.stats self)
  /\ ImBuf.x (Rasterizer.image_buffer_ self') = ImBuf.x (Rasterizer.image_buffer_ self)
  /\ ImBuf.y (Rasterizer.image_buffer_ self') = ImBuf.y (Rasterizer.image_buffer_ self).
Proof.
  cbv zeta. rewrite append_unfold. cbv zeta.
  destruct (_ =? _); [|cbn; repeat split].
  match goal with
  | |- context [flush ?a] =>
      destruct (flush_frame a) as (_ & H2 & H3 & H4 & H5 & H6 & H7 & H8)
  end.
  cbv zeta in H2, H3, H4, H5, H6, H7, H8.
  rewrite H2, H3, H4, H5, H6, H7, H8. cbn. repeat split.
Qed.

(** *** Scan conversion: an invariant rule *)

(** A property of the rasterizer that survives one guarded call of
    [clamped_rasterline], followed by [append] when a rasterline comes back,
    survives [rasterize_triangle]. *)
Section InvariantRule.
Variable I : rasterizer -> Prop.
Hypothesis I_row :
  forall y start_x end_x (start_data end_data : Inner) s,
    I s ->
    0 <= y < ImBuf.y (Rasterizer.image_buffer_ s) ->
    match clamped_rasterline y start_x end_x start_data end_data s with
    | (Some r, s') => I (append r s')
    | (None, s') => I s'
    end.

Lemma scanline_invariant left_add right_add (sc : Rasterizer.scan) v :
  I (Rasterizer.scan_self sc) ->
  I (Rasterizer.scan_self (scanline left_add right_add sc v)).
Proof.
  intros HI. unfold Rasterizer.scanline. cbn [Rasterizer.scan_self].
  destruct (andb _ _) eqn:Hg; [|exact HI].
  apply andb_true_iff in Hg. destruct Hg as [H0 H1].
  apply Z.leb_le in H0. apply Z.ltb_lt in H1.
  pose proof (I_row v (Rasterizer.coord_x (Rasterizer.scan_left sc))
                (Rasterizer.coord_x (Rasterizer.scan_right sc))
                (VertexOutInterface.data (Rasterizer.scan_left sc))
                (VertexOutInterface.data (Rasterizer.scan_right sc))
                _ HI (conj H0 H1)) as Hrow.
  destruct (clamped_rasterline _ _ _ _ _ _) as [[r|] s']; exact Hrow.
Qed.

Lemma scanlines_invariant left_add right_add (vs : list Z) (sc : Rasterizer.scan) :
  I (Rasterizer.scan_self sc) ->
  I (Rasterizer.scan_self (fold_left (scanline left_add right_add) vs sc)).
Proof.
  revert sc. induction vs as [|v vs IH]; intros sc HI; cbn; [exact HI|].
  apply IH, scanline_invariant, HI.
Qed.

Lemma rasterize_triangle_invariant vertex_out self :
  I self -> I (rasterize_triangle vertex_out self).
Proof.
  intros HI. unfold Rasterizer.rasterize_triangle, Rasterizer.scanlines.
  destruct (Rasterizer.edge_setup _ _) as [[[l r] la] ra].
  destruct (Rasterizer.edge_handoff _ _ _ _ _ _) as [[[l2 r2] la2] ra2].
  apply scanlines_invariant. cbn [Rasterizer.scan_self].
  apply scanlines_invariant. exact HI.
Qed.
End InvariantRule.

(** *** [draw_triangle]: the counters of triangles *)

Lemma rasterize_triangle_triangles vertex_out self :
  Stats.triangles (Rasterizer.stats (rasterize_triangle vertex_out self))
  = Stats.triangles (Rasterizer.stats self).
Proof.
  apply (rasterize_triangle_invariant
           (fun s => Stats.triangles (Rasterizer.stats s)
                     = Stats.triangles (Rasterizer.stats self))); [|reflexivity].
  intros y sx ex sd ed s Hs _.
  pose proof (clamped_rasterline_frame y sx ex sd ed s) as Hc. cbv zeta in Hc.
  destruct (clamped_rasterline y sx ex sd ed s) as [[r|] s']; cbn [snd] in Hc.
  - pose proof (append_frame r s') as Ha. cbv zeta in Ha.
    destruct Ha as (-> & _). destruct Hc as (_ & _ & -> & _). exact Hs.
  - destruct Hc as (_ & _ & -> & _). exact Hs.
Qed.

(** C9: every call of [draw_triangle] advances the counter of triangles seen
    by exactly one, whether the triangle is discarded or rasterized. *)
Theorem draw_triangle_counts_triangle (p1 p2 p3 : VertexInputType) self :
  Stats.triangles (Rasterizer.stats (draw_triangle p1 p2 p3 self))
  = Stats.triangles (Rasterizer.stats self) + 1.
Proof.
  unfold Rasterizer.draw_triangle.
  destruct (Rasterizer.triangle_not_visible _ _).
  - reflexivity.
  - rewrite rasterize_triangle_triangles. reflexivity.
Qed.

(** The rejection test of [draw_triangle], stated on the three outputs of the
    vertex stage. *)
Lemma triangle_not_visible_iff (o1 o2 o3 : VertexOut Inner) (im : ImBuf.t) :
  Rasterizer.triangle_not_visible (o1, o2, o3) im = true <->
  (F.ltb (Rasterizer.coord_x o1) F.zero = true
   /\ F.ltb (Rasterizer.coord_x o2) F.zero = true
   /\ F.ltb (Rasterizer.coord_x o3) F.zero = true)
  \/ (F.geb (Rasterizer.coord_x o1) (F.of_int (ImBuf.x im)) = true
      /\ F.geb (Rasterizer.coord_x o2) (F.of_int (ImBuf.x im)) = true
      /\ F.geb (Rasterizer.coord_x o3) (F.of_int (ImBuf.x im)) = true)
  \/ (F.ltb (Rasterizer.coord_y o1) F.zero = true
      /\ F.ltb (Rasterizer.coord_y o2) F.zero = true
      /\ F.ltb (Rasterizer.coord_y o3) F.zero = true)
  \/ (F.geb (Rasterizer.coord_y o1) (F.of_int (ImBuf.y im)) = true
      /\ F.geb (Rasterizer.coord_y o2) (F.of_int (ImBuf.y im)) = true
      /\ F.geb (Rasterizer.coord_y o3) (F.of_int (ImBuf.y im)) = true).
Proof.
  unfold Rasterizer.triangle_not_visible.
  rewrite !orb_true_iff, !andb_true_iff. tauto.
Qed.

(** C8: when the three outputs of the vertex stage all have [x < 0], or all
    [x >= buffer_width], or all [y < 0], or all [y >= buffer_height],
    [draw_triangle] discards the triangle before scan conversion: the pending
    rasterlines and the image are untouched (no rasterline is produced, no
    pixel is written), the counter of discarded triangles advances by exactly
    one, and the counters of rasterlines and flushes stay as they are. *)
Theorem draw_triangle_discards_offscreen (p1 p2 p3 : VertexInputType) self :
  let o1 := vertex_shader_ p1 in
  let o2 := vertex_shader_ p2 in
  let o3 := vertex_shader_ p3 in
  let width := F.of_int (ImBuf.x (Rasterizer.image_buffer_ self)) in
  let height := F.of_int (ImBuf.y (Rasterizer.image_buffer_ self)) in
  (F.ltb (Rasterizer.coord_x o1) F.zero = true
   /\ F.ltb (Rasterizer.coord_x o2) F.zero = true
   /\ F.ltb (Rasterizer.coord_x o3) F.zero = true)
  \/ (F.geb (Rasterizer.coord_x o1) width = true
      /\ F.geb (Rasterizer.coord_x o2) width = true
      /\ F.geb (Rasterizer.coord_x o3) width = true)
  \/ (F.ltb (Rasterizer.coord_y o1) F.zero = true
      /\ F.ltb (Rasterizer.coord_y o2) F.zero = true
      /\ F.ltb (Rasterizer.coord_y o3) F.zero = true)
  \/ (F.geb (Rasterizer.coord_y o1) height = true
      /\ F.geb (Rasterizer.coord_y o2) height = true
      /\ F.geb (Rasterizer.coord_y o3) height = true) ->
  let self' := draw_triangle p1 p2 p3 self in
  Rasterizer.rasterlines_ self' = Rasterizer.rasterlines_ self
  /\ Rasterizer.image_buffer_ self' = Rasterizer.image_buffer_ self
  /\ Stats.discarded_triangles (Rasterizer.stats self')
     = Stats.discarded_triangles (Rasterizer.stats self) + 1
  /\ Stats.triangles (Rasterizer.stats self')
     = Stats.triangles (Rasterizer.stats self) + 1
  /\ Stats.rasterlines (Rasterizer.stats self')
     = Stats.rasterlines (Rasterizer.stats self)
  /\ Stats.discarded_rasterlines (Rasterizer.stats self')
     = Stats.discarded_rasterlines (Rasterizer.stats self)
  /\ Stats.clamped_rasterlines (Rasterizer.stats self')
     = Stats.clamped_rasterlines (Rasterizer.stats self)
  /\ Stats.flushes (Rasterizer.stats self') = Stats.flushes (Rasterizer.stats self).
Proof.
  intros o1 o2 o3 width height Hoff self'.
  apply (triangle_not_visible_iff o1 o2 o3 (Rasterizer.image_buffer_ self)) in Hoff.
  subst self'. unfold Rasterizer.draw_triangle.
  cbn [Rasterizer.image_buffer_ Rasterizer.with_stats].
  fold o1 o2 o3. rewrite Hoff. cbn. repeat split.
Qed.

(** *** Scan conversion as a run of [append] calls *)

Lemma same_core_refl self : Rasterizer.same_core self self.
Proof. repeat split. Qed.

Lemma same_core_trans (a b c : rasterizer) :
  Rasterizer.same_core a b -> Rasterizer.same_core b c -> Rasterizer.same_core a c.
Proof.
  intros (H1 & H2 & H3) (K1 & K2 & K3).
  repeat split; etransitivity; eassumption.
Qed.

(** The image after a run of [render_rasterline] calls depends on the image
    before it only. *)
Lemma render_all_image (rs : list rasterline) (a b : rasterizer) :
  Rasterizer.image_buffer_ a = Rasterizer.image_buffer_ b ->
  Rasterizer.image_buffer_ (fold_left (fun s r => render_rasterline r s) rs a)
  = Rasterizer.image_buffer_ (fold_left (fun s r => render_rasterline r s) rs b).
Proof.
  revert a b. induction rs as [|r rs IH]; intros a b Hab; cbn; [exact Hab|].
  apply IH. unfold Rasterizer.render_rasterline; cbn. rewrite Hab. reflexivity.
Qed.

Lemma flush_same_core (a b : rasterizer) :
  Rasterizer.same_core a b -> Rasterizer.same_core (flush a) (flush b).
Proof.
  intros (H1 & H2 & H3). unfold Rasterizer.flush. rewrite <- H1.
  destruct (Rasterlines.is_empty _); [repeat split; assumption|].
  cbv zeta. cbn [Rasterizer.with_stats Rasterizer.rasterlines_].
  repeat split; cbn [Rasterizer.rasterlines_ Rasterizer.image_buffer_ Rasterizer.stats].
  - rewrite H1. apply render_all_image. exact H2.
  - rewrite H1.
    match goal with
    | |- context [Rasterizer.stats (fold_left ?f ?l ?s)] =>
        destruct (render_all_frame l s) as (_ & -> & _)
    end.
    match goal with
    | |- context [Rasterizer.stats (fold_left ?f ?l ?s)] =>
        destruct (render_all_frame l s) as (_ & -> & _)
    end.
    cbn. rewrite H3. reflexivity.
Qed.

Lemma append_same_core r (a b : rasterizer) :
  Rasterizer.same_core a b -> Rasterizer.same_core (append r a) (append r b).
Proof.
  intros (H1 & H2 & H3). rewrite !append_unfold. cbv zeta.
  unfold Rasterizer.pending_size. rewrite <- H1, <- H2.
  destruct (_ =? _).
  - apply flush_same_core. repeat split; assumption.
  - repeat split; assumption.
Qed.

Lemma appends_same_core (rs : list rasterline) (a b : rasterizer) :
  Rasterizer.same_core a b ->
  Rasterizer.same_core (Rasterizer.appends fragment_shader_ RasterlinesSize rs a)
                       (Rasterizer.appends fragment_shader_ RasterlinesSize rs b).
Proof.
  revert a b. induction rs as [|r rs IH]; intros a b Hab; cbn; [exact Hab|].
  apply IH, append_same_core, Hab.
Qed.

Lemma appends_dims (rs : list rasterline) self :
  let self' := Rasterizer.appends fragment_shader_ RasterlinesSize rs self in
  ImBuf.x (Rasterizer.image_buffer_ self') = ImBuf.x (Rasterizer.image_buffer_ self)
  /\ ImBuf.y (Rasterizer.image_buffer_ self') = ImBuf.y (Rasterizer.image_buffer_ self).
Proof.
  revert self. induction rs as [|r rs IH]; intros self; cbn; [split; reflexivity|].
  destruct (IH (append r self)) as [Hx Hy]. cbv zeta in Hx, Hy.
  pose proof (append_frame r self) as Ha. cbv zeta in Ha.
  destruct Ha as (_ & _ & _ & _ & _ & Ax & Ay).
  unfold Rasterizer.appends in Hx, Hy. rewrite Hx, Hy, Ax, Ay. split; reflexivity.
Qed.

(** What [rasterize_triangle] does to the pending rasterlines, the image and
    the flush counter is what a run of [append] calls does, each with a
    rasterline that a guarded call of [clamped_rasterline] returned. *)
Lemma rasterize_triangle_emits (P : rasterline -> Prop) vertex_out self :
  (forall y start_x end_x (start_data end_data : Inner) s r,
      0 <= y < ImBuf.y (Rasterizer.image_buffer_ s) ->
      ImBuf.x (Rasterizer.image_buffer_ s) = ImBuf.x (Rasterizer.image_buffer_ self) ->
      ImBuf.y (Rasterizer.image_buffer_ s) = ImBuf.y (Rasterizer.image_buffer_ self) ->
      fst (clamped_rasterline y start_x end_x start_data end_data s) = Some r ->
      P r) ->
  exists rs,
    Forall P rs
    /\ Rasterizer.same_core (rasterize_triangle vertex_out self)
         (Rasterizer.appends fragment_shader_ RasterlinesSize rs self).
Proof.
  intros HP.
  apply (rasterize_triangle_invariant
           (fun s => exists rs, Forall P rs
               /\ Rasterizer.same_core s
                    (Rasterizer.appends fragment_shader_ RasterlinesSize rs self)));
    [|exists []; split; [constructor|apply same_core_refl]].
  intros y sx ex sd ed s (rs & Hrs & Hcore) Hy.
  pose proof (clamped_rasterline_frame y sx ex sd ed s) as Hc. cbv zeta in Hc.
  pose proof (HP y sx ex sd ed s) as HPs.
  destruct (clamped_rasterline y sx ex sd ed s) as [[r|] s']; cbn [fst snd] in *.
  - exists (rs ++ [r]). split.
    + apply Forall_app. split; [exact Hrs|]. constructor; [|constructor].
      destruct (appends_dims rs self) as [Dx Dy]. cbv zeta in Dx, Dy.
      destruct Hcore as (_ & Him & _).
      apply HPs; try reflexivity; try exact Hy; rewrite Him; assumption.
    + unfold Rasterizer.appends. rewrite fold_left_app. cbn [fold_left].
      apply append_same_core. apply same_core_trans with s; [|exact Hcore].
      destruct Hc as (C1 & C2 & _ & _ & C5 & _). repeat split; assumption.
  - exists rs. split; [exact Hrs|].
    apply same_core_trans with s; [|exact Hcore].
    destruct Hc as (C1 & C2 & _ & _ & C5 & _). repeat split; assumption.
Qed.

(** A rasterline that [clamped_rasterline] returns for a row of the buffer
    lies on the buffer, but for the order of its two columns. *)
Lemma clamped_rasterline_within y start_x end_x (start_data end_data : Inner) self r :
  0 <= y < ImBuf.y (Rasterizer.image_buffer_ self) ->
  0 <= ImBuf.x (Rasterizer.image_buffer_ self) < 2 ^ 32 ->
  ImBuf.y (Rasterizer.image_buffer_ self) <= 2 ^ 32 ->
  fst (clamped_rasterline y start_x end_x start_data end_data self) = Some r ->
  Rasterizer.within (ImBuf.x (Rasterizer.image_buffer_ self))
                    (ImBuf.y (Rasterizer.image_buffer_ self)) r.
Proof.
  intros Hy Hw Hh. unfold Rasterizer.clamped_rasterline.
  destruct (F.geb start_x end_x); [discriminate|].
  destruct (F.ltb end_x (F.of_int 0)); [discriminate|].
  cbn [Rasterizer.image_buffer_ Rasterizer.with_stats].
  destruct (F.geb start_x _); [discriminate|].
  pose proof (wrap32_small _ Hw) as Ew.
  assert (Ey : wrap32 y = y) by (apply wrap32_small; lia).
  destruct (_ <? 0); destruct (_ >? _) eqn:Hgt; cbn [fst];
    intros [= <-]; unfold Rasterizer.within; cbn;
    rewrite ?Ey; rewrite ?Ew in *;
    pose proof (wrap32_range (ClampingMethod.column_for clamping_method start_x));
    pose proof (wrap32_range 0);
    try (apply Z.gtb_ltb in Hgt; rewrite Z.ltb_ge in Hgt);
    repeat split; lia.
Qed.

(** Whatever the clamping method does, every rasterline that [draw_triangle]
    creates and appends has a row of the buffer ([0 <= row < buffer_height])
    and an end column that is at most [buffer_width].  The order of the two
    columns depends on the clamping method and is the matter of
    [Runs.ordered] further down. *)
Theorem draw_triangle_rasterlines_within (p1 p2 p3 : VertexInputType) self :
  0 <= ImBuf.x (Rasterizer.image_buffer_ self) < 2 ^ 32 ->
  ImBuf.y (Rasterizer.image_buffer_ self) <= 2 ^ 32 ->
  exists rs,
    Forall (Rasterizer.within (ImBuf.x (Rasterizer.image_buffer_ self))
                              (ImBuf.y (Rasterizer.image_buffer_ self))) rs
    /\ Rasterizer.same_core (draw_triangle p1 p2 p3 self)
         (Rasterizer.appends fragment_shader_ RasterlinesSize rs self).
Proof.
  intros Hw Hh. unfold Rasterizer.draw_triangle.
  destruct (Rasterizer.triangle_not_visible _ _).
  - exists []. split; [constructor|]. repeat split.
  - match goal with
    | |- context [rasterize_triangle ?vo ?s] =>
        destruct (rasterize_triangle_emits
                    (Rasterizer.within (ImBuf.x (Rasterizer.image_buffer_ self))
                                       (ImBuf.y (Rasterizer.image_buffer_ self)))
                    vo s) as (rs & Hrs & Hcore)
    end.
    + intros y sx ex sd ed s r Hy Hx Hy' Hr. cbn in Hx, Hy'.
      rewrite <- Hx, <- Hy'.
      apply (clamped_rasterline_within y sx ex sd ed s); try assumption.
      * rewrite Hx. exact Hw.
      * rewrite Hy'. exact Hh.
    + exists rs. split; [exact Hrs|].
      apply same_core_trans with (1 := Hcore).
      apply appends_same_core. repeat split.
Qed.

(** *** The rasterline buffer *)

(** As long as no [append] makes the size equal to [RasterlinesSize], a run of
    [append] calls only grows the buffer. *)
Lemma appends_no_flush (rs : list rasterline) self :
  (forall k, (k < length rs)%nat ->
             Rasterizer.pending_size self + Z.of_nat k + 1 <> RasterlinesSize) ->
  Rasterizer.appends fragment_shader_ RasterlinesSize rs self
  = Rasterizer.mk
      (Rasterlines.mk (Rasterlines.buffer (Rasterizer.rasterlines_ self) ++ rs))
      (Rasterizer.image_buffer_ self) (Rasterizer.stats self).
Proof.
  revert self. induction rs as [|r rs IH]; intros self Hk.
  - destruct self as [[buf] im st]. cbn. rewrite app_nil_r. reflexivity.
  - cbn [Rasterizer.appends fold_left]. fold (Rasterizer.appends fragment_shader_
      RasterlinesSize rs (append r self)).
    rewrite append_unfold. cbv zeta.
    destruct (_ =? _) eqn:He.
    + apply Z.eqb_eq in He. exfalso. apply (Hk 0%nat); [cbn; lia|lia].
    + rewrite IH.
      * cbn. rewrite <- app_assoc. reflexivity.
      * intros k Hlt. unfold Rasterizer.pending_size, Vector.size. cbn.
        rewrite length_app. cbn [length].
        specialize (Hk (S k)). cbn [length] in Hk.
        unfold Rasterizer.pending_size, Vector.size in Hk. lia.
Qed.

(** From an empty buffer, as [flush] leaves it, [RasterlinesSize] calls of
    [append] flush once, in the last call: no earlier call changes the flush
    counter, and after the last one the buffer is empty again. *)
Lemma appends_capacity_from_empty (rs : list rasterline) self :
  Rasterlines.buffer (Rasterizer.rasterlines_ self) = [] ->
  0 < RasterlinesSize ->
  Z.of_nat (length rs) = RasterlinesSize ->
  let self' := Rasterizer.appends fragment_shader_ RasterlinesSize rs self in
  Rasterlines.buffer (Rasterizer.rasterlines_ self') = []
  /\ Stats.flushes (Rasterizer.stats self')
     = Stats.flushes (Rasterizer.stats self) + 1
  /\ forall n, (n < length rs)%nat ->
       Rasterizer.appends fragment_shader_ RasterlinesSize (firstn n rs) self
       = Rasterizer.mk (Rasterlines.mk (firstn n rs))
           (Rasterizer.image_buffer_ self) (Rasterizer.stats self).
Proof.
  intros Hempty Hpos Hlen.
  assert (Hsize : Rasterizer.pending_size self = 0)
    by (unfold Rasterizer.pending_size, Vector.size; rewrite Hempty; reflexivity).
  assert (Hfirst : forall n, (n < length rs)%nat ->
       Rasterizer.appends fragment_shader_ RasterlinesSize (firstn n rs) self
       = Rasterizer.mk (Rasterlines.mk (firstn n rs))
           (Rasterizer.image_buffer_ self) (Rasterizer.stats self)).
  { intros n Hn. rewrite appends_no_flush.
    - rewrite Hempty. reflexivity.
    - intros k Hk. rewrite length_firstn in Hk. lia. }
  cbv zeta.
  destruct (exists_last (l := rs)) as (rs0 & r0 & ->);
    [intros ->; cbn in Hlen; lia|].
  rewrite length_app in Hlen. cbn [length] in Hlen.
  assert (Hlast :
    Rasterizer.appends fragment_shader_ RasterlinesSize (rs0 ++ [r0]) self
    = flush (Rasterizer.mk (Rasterlines.mk (rs0 ++ [r0]))
               (Rasterizer.image_buffer_ self) (Rasterizer.stats self))).
  { unfold Rasterizer.appends. rewrite fold_left_app. cbn [fold_left].
    fold (Rasterizer.appends fragment_shader_ RasterlinesSize rs0 self).
    rewrite appends_no_flush by (intros k Hk; lia).
    rewrite append_unfold. cbv zeta. rewrite Hempty.
    unfold Rasterizer.pending_size, Vector.size. cbn.
    replace (Z.of_nat (length rs0) + 1 =? RasterlinesSize) with true
      by (symmetry; apply Z.eqb_eq; lia).
    reflexivity. }
  rewrite Hlast. split; [apply flush_pending|]. split; [|exact Hfirst].
  match goal with
  | |- context [flush ?a] => destruct (flush_frame a) as (Hf & _)
  end.
  cbv zeta in Hf. rewrite Hf.
  cbn [Rasterizer.rasterlines_ Rasterizer.stats]. unfold Rasterlines.is_empty.
  cbn [Rasterlines.buffer].
  destruct (Vector.is_empty (rs0 ++ [r0])) eqn:He; [|reflexivity].
  apply is_empty_nil in He. destruct rs0; discriminate.
Qed.

(** Once the buffer holds [RasterlinesSize] rasterlines or more, no [append]
    flushes. *)
Lemma appends_at_capacity (rs : list rasterline) self :
  RasterlinesSize <= Rasterizer.pending_size self ->
  Rasterizer.appends fragment_shader_ RasterlinesSize rs self
  = Rasterizer.mk
      (Rasterlines.mk (Rasterlines.buffer (Rasterizer.rasterlines_ self) ++ rs))
      (Rasterizer.image_buffer_ self) (Rasterizer.stats self).
Proof.
  intros Hfull. apply appends_no_flush. intros k _. lia.
Qed.

(** C1 on a newly constructed rasterizer: [Rasterlines()] builds its vector
    with [RasterlinesSize] default-constructed rasterlines already in it, so
    the size is never equal to [RasterlinesSize] right after an [append].  No
    run of [append] calls flushes, however long: the flush counter stays at
    zero and the buffer keeps the default-constructed rasterlines followed by
    everything appended. *)
Theorem appends_after_construction_never_flush
    (image_buffer : ImBuf.t) (default : rasterline) (rs : list rasterline) :
  let self' :=
    Rasterizer.appends fragment_shader_ RasterlinesSize rs
      (Rasterizer.new RasterlinesSize image_buffer default) in
  Stats.flushes (Rasterizer.stats self') = 0
  /\ Rasterlines.buffer (Rasterizer.rasterlines_ self')
     = Vector.with_size RasterlinesSize default ++ rs
  /\ RasterlinesSize + Z.of_nat (length rs) <= Rasterizer.pending_size self'.
Proof.
  cbv zeta.
  assert (Hsize : RasterlinesSize
                  <= Rasterizer.pending_size
                       (Rasterizer.new RasterlinesSize image_buffer default)).
  { unfold Rasterizer.pending_size, Vector.size, Rasterizer.new, Rasterlines.new,
      Vector.with_size. cbn. rewrite repeat_length. lia. }
  rewrite appends_at_capacity by exact Hsize. cbn.
  repeat split.
  unfold Rasterizer.pending_size, Vector.size, Vector.with_size. cbn.
  rewrite length_app, repeat_length. lia.
Qed.

(** From a state in which fewer than [RasterlinesSize] rasterlines are
    pending, as after [flush], no sequence of calls ever leaves
    [RasterlinesSize] or more rasterlines pending. *)
Lemma append_pending_below r self :
  Rasterizer.pending_size self < RasterlinesSize ->
  Rasterizer.pending_size (append r self) < RasterlinesSize.
Proof.
  intros Hlt. rewrite append_unfold. cbv zeta.
  destruct (_ =? _) eqn:He.
  - unfold Rasterizer.pending_size. rewrite flush_pending. cbn.
    unfold Rasterizer.pending_size, Vector.size in Hlt. lia.
  - apply Z.eqb_neq in He. unfold Rasterizer.pending_size, Vector.size in *.
    cbn. rewrite length_app. cbn [length]. lia.
Qed.

Lemma perform_pending_below (c : Rasterizer.call) self :
  Rasterizer.pending_size self < RasterlinesSize ->
  Rasterizer.pending_size
    (Rasterizer.perform vertex_shader_ fragment_shader_ RasterlinesSize
       clamping_method c self) < RasterlinesSize.
Proof.
  intros Hlt. destruct c as [p1 p2 p3|]; cbn [Rasterizer.perform].
  - unfold Rasterizer.draw_triangle.
    destruct (Rasterizer.triangle_not_visible _ _); [exact Hlt|].
    apply (rasterize_triangle_invariant
             (fun s => Rasterizer.pending_size s < RasterlinesSize));
      [|exact Hlt].
    intros y sx ex sd ed s Hs _.
    pose proof (clamped_rasterline_frame y sx ex sd ed s) as Hc. cbv zeta in Hc.
    destruct (clamped_rasterline y sx ex sd ed s) as [[r|] s']; cbn [snd] in Hc;
      destruct Hc as (C1 & _).
    + apply append_pending_below. unfold Rasterizer.pending_size in *.
      rewrite C1. exact Hs.
    + unfold Rasterizer.pending_size in *. rewrite C1. exact Hs.
  - unfold Rasterizer.pending_size. rewrite flush_pending. cbn.
    unfold Rasterizer.pending_size, Vector.size in Hlt. lia.
Qed.

Lemma run_pending_below (calls : list Rasterizer.call) self :
  Rasterizer.pending_size self < RasterlinesSize ->
  Rasterizer.pending_size
    (Rasterizer.run vertex_shader_ fragment_shader_ RasterlinesSize
       clamping_method calls self) < RasterlinesSize.
Proof.
  revert self. induction calls as [|c calls IH]; intros self Hlt; cbn; [exact Hlt|].
  apply IH, perform_pending_below, Hlt.
Qed.

(** *** The rows of the second scanline loop *)

(** The rows of the second loop as the code has them: it runs the per-row step
    (the guarded rasterline construction followed by the advance of both
    edges) once for each row from [mid.scanline] (from [top.scanline] when
    that is larger, since the loop variable goes on from where the first loop
    left it) up to and including [bottom.scanline - 2]; [rasterize_triangle] is
    the first loop over [phase1_rows], the hand-off, and the second loop over
    these rows. *)
Theorem phase2_rows_exact vertex_out self :
  let bottom := snd (Rasterizer.sorted_vertices vertex_out) in
  let bottom_scanline :=
    ClampingMethod.scanline_for clamping_method (Rasterizer.coord_y bottom) in
  (forall v,
      In v (Rasterizer.phase2_rows clamping_method vertex_out) <->
      Z.max (Rasterizer.min_v clamping_method vertex_out)
            (Rasterizer.mid_v clamping_method vertex_out) <= v
      /\ v <= bottom_scanline - 2)
  /\ rasterize_triangle vertex_out self
     = let '(left_, right_, left_add, right_add) :=
         Rasterizer.edge_setup clamping_method vertex_out in
       let s1 :=
         fold_left (scanline left_add right_add)
           (Rasterizer.phase1_rows clamping_method vertex_out)
           (Rasterizer.mk_scan left_ right_ self) in
       let '(left_, right_, left_add, right_add) :=
         Rasterizer.edge_handoff clamping_method vertex_out
           (Rasterizer.scan_left s1) (Rasterizer.scan_right s1)
           left_add right_add in
       Rasterizer.scan_self
         (fold_left (scanline left_add right_add)
            (Rasterizer.phase2_rows clamping_method vertex_out)
            (Rasterizer.mk_scan left_ right_ (Rasterizer.scan_self s1))).
Proof.
  cbv zeta. split.
  - intros v. unfold Rasterizer.phase2_rows. rewrite in_rows.
    unfold Rasterizer.max_v.
    destruct (Rasterizer.sorted_vertices vertex_out) as [[top mid] bottom].
    cbn [snd]. lia.
  - unfold Rasterizer.rasterize_triangle, Rasterizer.scanlines,
      Rasterizer.phase1_rows, Rasterizer.phase2_rows.
    destruct (Rasterizer.edge_setup _ _) as [[[l r] la] ra].
    destruct (Rasterizer.edge_handoff _ _ _ _ _ _) as [[[l2 r2] la2] ra2].
    reflexivity.
Qed.

(** *** [render_rasterline]: the pixels written *)

Lemma copy_v4_v4_get (im : ImBuf.t) (p : Z) (v : float4.t) (i : Z) :
  ImBuf.rect_float (ImBuf.copy_v4_v4 im (p * 4) v) i
  = if i / 4 =? p then float4.get v (i mod 4) else ImBuf.rect_float im i.
Proof.
  unfold ImBuf.copy_v4_v4, ImBuf.store, float4.get. cbn [ImBuf.rect_float].
  pose proof (Z.div_mod i 4 ltac:(lia)) as Hdm.
  pose proof (Z.mod_pos_bound i 4 ltac:(lia)) as Hb.
  generalize dependent (i mod 4). generalize dependent (i / 4).
  intros q m Hdm Hb.
  repeat match goal with
         | |- context [?a =? ?b] => destruct (Z.eqb_spec a b)
         end; try reflexivity; exfalso; lia.
Qed.

(** The pixel index of [render_pixel] when nothing wraps around. *)
Lemma pixel_index_small (row width x : Z) :
  0 <= row -> 0 <= width -> 0 <= x -> (row * width + x) * 4 < 2 ^ 32 ->
  wrap32 (wrap32 (wrap32 (row * wrap32 width) + x) * 4) = (row * width + x) * 4.
Proof.
  intros Hr Hw Hx Hs.
  assert (Hrw : 0 <= row * width) by (apply Z.mul_nonneg_nonneg; assumption).
  assert (Hin : wrap32 (wrap32 (row * wrap32 width) + x) = row * width + x).
  { unfold wrap32. rewrite Z.mul_mod_idemp_r by lia.
    rewrite Z.add_mod_idemp_l by lia. apply Z.mod_small. lia. }
  rewrite Hin. apply wrap32_small. lia.
Qed.

Lemma render_columns_get n r x (data : Inner) (im : ImBuf.t) (i : Z) :
  0 <= Rasterline.y r -> 0 <= ImBuf.x im -> 0 <= x ->
  (Rasterline.y r * ImBuf.x im + x + Z.of_nat n) * 4 <= 2 ^ 32 ->
  let base := Rasterline.y r * ImBuf.x im in
  ImBuf.rect_float (Rasterizer.render_columns fragment_shader_ n r x data im) i
  = if (base + x <=? i / 4) && (i / 4 <? base + x + Z.of_nat n)
    then float4.get
           (fragment_shader_
              (Nat.iter (Z.to_nat (i / 4 - base - x))
                 (fun d => inner_add d (Rasterline.delta_step r)) data))
           (i mod 4)
    else ImBuf.rect_float im i.
Proof.
  revert x data im. induction n as [|n IH]; intros x data im Hy Hw Hx Hs base.
  - cbn [Rasterizer.render_columns].
    destruct (base + x <=? i / 4) eqn:H1; destruct (i / 4 <? base + x + Z.of_nat 0) eqn:H2;
      try reflexivity.
    apply Z.leb_le in H1. apply Z.ltb_lt in H2. lia.
  - cbn [Rasterizer.render_columns]. cbv zeta.
    assert (Hdims : ImBuf.x (Rasterizer.render_pixel fragment_shader_ r x data im)
                    = ImBuf.x im) by reflexivity.
    rewrite IH; rewrite ?Hdims; try lia.
    fold base.
    unfold Rasterizer.render_pixel at 1.
    rewrite pixel_index_small by (try assumption; fold base; lia).
    rewrite copy_v4_v4_get. fold base.
    destruct (base + (x + 1) <=? i / 4) eqn:H1;
      destruct (i / 4 <? base + (x + 1) + Z.of_nat n) eqn:H2;
      destruct (base + x <=? i / 4) eqn:H3;
      destruct (i / 4 <? base + x + Z.of_nat (S n)) eqn:H4;
      destruct (i / 4 =? base + x) eqn:H5;
      rewrite ?Z.leb_le, ?Z.ltb_lt, ?Z.leb_gt, ?Z.ltb_ge, ?Z.eqb_eq, ?Z.eqb_neq in *;
      cbn [andb]; try lia; try reflexivity.
    + replace (Z.to_nat (i / 4 - base - x))
        with (S (Z.to_nat (i / 4 - base - (x + 1)))) by lia.
      rewrite Nat.iter_succ_r. reflexivity.
    + replace (i / 4 - base - x) with 0 by lia. reflexivity.
Qed.


End RasterizerProperties.

(** ** Concrete runs *)

(** The example of the clamped-rasterline counter: a run from [-5] to [10] on
    a buffer eight pixels wide is clamped on both ends, to the columns
    [[0, 8)], and counted once. *)
Example clamped_on_both_ends :
  let result :=
    Rasterizer.clamped_rasterline CenterPixelClampingMethod.method 0
      (F.of_int (-5)) (F.of_int 10) (F.of_int 1) (F.of_int 1)
      (Usage.flushed 8 8) in
  option_map (fun l => (Rasterline.start_x l, Rasterline.end_x l)) (fst result)
  = Some (0, 8)
  /\ Stats.clamped_rasterlines (Rasterizer.stats (snd result)) = 1.
Proof. vm_compute. split; reflexivity. Qed.

(** A newly constructed rasterizer that buffers two rasterlines, after two
    calls of [append]: four rasterlines are pending and nothing was flushed. *)
Example appends_after_construction_of_size_two :
  let self :=
    Rasterizer.appends Usage.fragment 2
      [Rasterline.mk 0 0 1 F.zero F.zero; Rasterline.mk 1 0 1 F.zero F.zero]
      (Rasterizer.new 2 (Usage.image 8 8) Usage.default_rasterline) in
  Rasterizer.pending_size self = 4
  /\ Stats.flushes (Rasterizer.stats self) = 0.
Proof. vm_compute. split; reflexivity. Qed.

(** C3 on a newly constructed rasterizer that buffers two rasterlines: after
    one [draw_triangle] of the triangle [(0,0)], [(4,0)], [(0,4)] on an image
    of eight by eight pixels, five rasterlines are pending, more than the two
    the buffer is configured for, and nothing was flushed. *)
Theorem pending_exceeds_capacity_after_construction :
  let self :=
    Rasterizer.run Usage.vertex Usage.fragment 2 CenterPixelClampingMethod.method
      [Rasterizer.DrawTriangle
         (Usage.point 0 0) (Usage.point 4 0) (Usage.point 0 4)]
      (Rasterizer.new 2 (Usage.image 8 8) Usage.default_rasterline) in
  Rasterizer.pending_size self = 5
  /\ 2 < Rasterizer.pending_size self
  /\ Stats.flushes (Rasterizer.stats self) = 0.
Proof. vm_compute. repeat split; reflexivity. Qed.

(** The same call on a rasterizer whose buffer is empty: the buffer is flushed
    when its second rasterline arrives, and one rasterline is pending. *)
Example pending_below_capacity_after_flush :
  let self :=
    Rasterizer.run Usage.vertex Usage.fragment 2 CenterPixelClampingMethod.method
      [Rasterizer.DrawTriangle
         (Usage.point 0 0) (Usage.point 4 0) (Usage.point 0 4)]
      (Usage.flushed 8 8) in
  Rasterizer.pending_size self = 1
  /\ Stats.flushes (Rasterizer.stats self) = 1.
Proof. vm_compute. split; reflexivity. Qed.

(** C4: the second loop stops one row short of [bottom.scanline - 1].  For
    the triangle [(0,0)], [(8,0)], [(4,4)] the top is strictly above the
    bottom, [mid.scanline] is 0 and [bottom.scanline] is 4; [max_v] is already
    [bottom.scanline - 1] and the loop runs while [v < max_v], so its rows are
    0, 1 and 2: on an image of eight by eight pixels one rasterline is made
    for each of them and none for row 3.  The first loop does reach the row
    before the bottom scanline: for the mirrored triangle [(4,0)], [(0,4)],
    [(8,4)], whose [bottom.scanline] is 4 as well, it makes the rasterlines of
    the rows 0, 1, 2 and 3. *)
Theorem second_loop_stops_one_row_short :
  let method := CenterPixelClampingMethod.method in
  let flat_top :=
    (Usage.vertex (Usage.point 0 0), Usage.vertex (Usage.point 8 0),
     Usage.vertex (Usage.point 4 4)) in
  let flat_bottom :=
    (Usage.vertex (Usage.point 4 0), Usage.vertex (Usage.point 0 4),
     Usage.vertex (Usage.point 8 4)) in
  let drawn_flat_top :=
    Usage.draw_triangle 4096 (Usage.point 0 0) (Usage.point 8 0)
      (Usage.point 4 4) (Usage.flushed 8 8) in
  let drawn_flat_bottom :=
    Usage.draw_triangle 4096 (Usage.point 4 0) (Usage.point 0 4)
      (Usage.point 8 4) (Usage.flushed 8 8) in
  (let '(top, mid, bottom) := Rasterizer.sorted_vertices flat_top in
   F.ltb (Rasterizer.coord_y top) (Rasterizer.coord_y bottom) = true
   /\ ClampingMethod.scanline_for method (Rasterizer.coord_y mid) = 0
   /\ ClampingMethod.scanline_for method (Rasterizer.coord_y bottom) = 4)
  /\ Rasterizer.max_v method flat_top = 4 - 1
  /\ Rasterizer.phase1_rows method flat_top = []
  /\ Rasterizer.phase2_rows method flat_top = [0; 1; 2]
  /\ Usage.pending drawn_flat_top = [(0, 1, 7); (1, 2, 6); (2, 3, 5)]
  /\ Stats.rasterlines (Rasterizer.stats drawn_flat_top) = 3
  /\ (let '(top, mid, bottom) := Rasterizer.sorted_vertices flat_bottom in
      ClampingMethod.scanline_for method (Rasterizer.coord_y mid) = 4
      /\ ClampingMethod.scanline_for method (Rasterizer.coord_y bottom) = 4)
  /\ Rasterizer.phase1_rows method flat_bottom = [0; 1; 2; 3]
  /\ Rasterizer.phase2_rows method flat_bottom = []
  /\ Usage.pending drawn_flat_bottom
     = [(0, 3, 5); (1, 2, 6); (2, 1, 7); (3, 0, 8)].
Proof.
  vm_compute. repeat split; reflexivity.
Qed.

(** C5 with [start_col < end_col] fails on the triangle [(0,0)], [(1,0)],
    [(0,3)]: on row 1 the run from [0] to about a third has both ends in
    column 0, and the rasterline appended for it has
    [start_col = end_col = 0]. *)
Lemma empty_rasterline_is_appended :
  let self :=
    Usage.draw_triangle 4096 (Usage.point 0 0) (Usage.point 1 0)
      (Usage.point 0 3) (Usage.flushed 8 8) in
  Usage.pending self = [(0, 0, 1); (1, 0, 0)]
  /\ exists l,
       In l (Rasterlines.buffer (Rasterizer.rasterlines_ self))
       /\ ~ (Rasterline.start_x l < Rasterline.end_x l).
Proof.
  cbv zeta. split; [vm_compute; reflexivity|].
  eexists. split.
  - vm_compute. right. left. reflexivity.
  - cbn. lia.
Qed.

(** *** Witnesses *)

Lemma draw_triangle_rasterlines_within_witness :
  let self := Usage.flushed 8 8 in
  (0 <= ImBuf.x (Rasterizer.image_buffer_ self) < 2 ^ 32)
  /\ ImBuf.y (Rasterizer.image_buffer_ self) <= 2 ^ 32
  /\ exists rs,
       Forall (Rasterizer.within 8 8) rs
       /\ Rasterizer.same_core
            (Usage.draw_triangle 4096 (Usage.point 0 0) (Usage.point 1 0)
               (Usage.point 0 3) self)
            (Rasterizer.appends Usage.fragment 4096 rs self).
Proof.
  cbv zeta.
  split; [cbn; lia|]. split; [cbn; lia|].
  apply (draw_triangle_rasterlines_within Usage.vertex Usage.fragment 4096
           CenterPixelClampingMethod.method (Usage.point 0 0) (Usage.point 1 0)
           (Usage.point 0 3) (Usage.flushed 8 8)); cbn; lia.
Defined.

Lemma draw_triangle_discards_offscreen_witness :
  let self := Usage.flushed 8 8 in
  let self' :=
    Usage.draw_triangle 4096 (Usage.point (-3) 0) (Usage.point (-1) 2)
      (Usage.point (-2) 5) self in
  (F.ltb (F.of_int (-3)) F.zero = true
   /\ F.ltb (F.of_int (-1)) F.zero = true
   /\ F.ltb (F.of_int (-2)) F.zero = true)
  /\ Rasterizer.rasterlines_ self' = Rasterizer.rasterlines_ self
  /\ Rasterizer.image_buffer_ self' = Rasterizer.image_buffer_ self
  /\ Stats.discarded_triangles (Rasterizer.stats self') = 1
  /\ Stats.rasterlines (Rasterizer.stats self') = 0.
Proof.
  cbv zeta.
  assert (Hoff : F.ltb (F.of_int (-3)) F.zero = true
                 /\ F.ltb (F.of_int (-1)) F.zero = true
                 /\ F.ltb (F.of_int (-2)) F.zero = true)
    by (repeat split; reflexivity).
  split; [exact Hoff|].
  pose proof (draw_triangle_discards_offscreen Usage.vertex Usage.fragment 4096
                CenterPixelClampingMethod.method (Usage.point (-3) 0)
                (Usage.point (-1) 2) (Usage.point (-2) 5) (Usage.flushed 8 8)
                (or_introl Hoff)) as H.
  cbv zeta in H. destruct H as (H1 & H2 & H3 & _ & H5 & _).
  repeat split; assumption.
Defined.


(** * Further properties *)

(** ** Order of [float] comparisons

    [SFcompare] is a total preorder on the values that are not NaN. *)

Lemma lex_spec (e1 e2 : Z) (m1 m2 : positive) :
  match (match Z.compare e1 e2 with
         | Lt => Lt | Gt => Gt | Eq => Pos.compare_cont Eq m1 m2 end) with
  | Lt => e1 < e2 \/ (e1 = e2 /\ (m1 < m2)%positive)
  | Eq => e1 = e2 /\ m1 = m2
  | Gt => e2 < e1 \/ (e1 = e2 /\ (m2 < m1)%positive)
  end.
Proof.
  change (Pos.compare_cont Eq m1 m2) with (Pos.compare m1 m2).
  destruct (Z.compare_spec e1 e2); destruct (Pos.compare_spec m1 m2); auto; lia.
Qed.

Lemma SFcompare_total (a b : float) :
  is_nan a = false -> is_nan b = false -> exists c, SFcompare a b = Some c.
Proof.
  destruct a, b; cbn; intros; try discriminate; eauto.
Qed.

Lemma SFcompare_antisym (a b : float) :
  SFcompare b a = option_map CompOpp (SFcompare a b).
Proof.
  destruct a as [[]|[]| |[] m1 e1], b as [[]|[]| |[] m2 e2]; cbn; try reflexivity;
    change (Pos.compare_cont Eq m1 m2) with (Pos.compare m1 m2);
    change (Pos.compare_cont Eq m2 m1) with (Pos.compare m2 m1);
    rewrite (Z.compare_antisym e1 e2), (Pos.compare_antisym m1 m2);
    destruct (e1 ?= e2), (m1 ?= m2)%positive; reflexivity.
Qed.

Lemma SFcompare_refl (a : float) : is_nan a = false -> SFcompare a a = Some Eq.
Proof.
  destruct a as [[]|[]| |[] m e]; cbn; intros; try discriminate; try reflexivity;
    rewrite Z.compare_refl; change (Pos.compare_cont Eq m m) with (Pos.compare m m);
    rewrite Pos.compare_refl; reflexivity.
Qed.

Lemma SFcompare_trans (a b c : float) (x : comparison) :
  SFcompare a b = Some x -> SFcompare b c = Some x -> SFcompare a c = Some x.
Proof.
  destruct a as [[]|[]| |[] m1 e1], b as [[]|[]| |[] m2 e2], c as [[]|[]| |[] m3 e3];
    cbn; intros H1 H2; try discriminate; try congruence;
    pose proof (lex_spec e1 e2 m1 m2) as L12;
    pose proof (lex_spec e2 e3 m2 m3) as L23;
    pose proof (lex_spec e1 e3 m1 m3) as L13;
    change (Pos.compare_cont Eq m1 m2) with (Pos.compare m1 m2) in *;
    change (Pos.compare_cont Eq m2 m3) with (Pos.compare m2 m3) in *;
    change (Pos.compare_cont Eq m1 m3) with (Pos.compare m1 m3) in *;
    destruct (e1 ?= e2), (m1 ?= m2)%positive, (e2 ?= e3), (m2 ?= m3)%positive,
      (e1 ?= e3), (m1 ?= m3)%positive; cbn in *;
    try discriminate; try congruence; try (exfalso; lia).
Qed.

Lemma SFcompare_eq_l (a b c : float) :
  SFcompare a b = Some Eq -> SFcompare a c = SFcompare b c.
Proof.
  destruct a as [[]|[]| |[] m1 e1], b as [[]|[]| |[] m2 e2], c as [[]|[]| |[] m3 e3];
    cbn; intros H1; try discriminate; try reflexivity;
    pose proof (lex_spec e1 e2 m1 m2) as L12;
    change (Pos.compare_cont Eq m1 m2) with (Pos.compare m1 m2) in *;
    destruct (e1 ?= e2), (m1 ?= m2)%positive; cbn in *; try discriminate;
    destruct L12 as [-> ->]; reflexivity.
Qed.

Lemma ltb_asym (a b : float) : F.ltb a b = true -> F.ltb b a = false.
Proof.
  unfold F.ltb, SFltb. rewrite (SFcompare_antisym a b).
  destruct (SFcompare a b) as [[]|]; cbn; congruence.
Qed.

(** ** [order_triangle_vertices] *)

Section VertexOrder.
Context {Inner : Type}.

(** X6.  When no y-coordinate is NaN, [order_triangle_vertices] returns the three
    indices of the array, each once, with the y-coordinates in ascending
    order, and with the first strictly below the last unless the two compare
    equal: the assertions at the end of the function hold. *)
Theorem order_triangle_vertices_sorted
    (vertex_out : Rasterizer.vertex_array (InterfaceInnerType := Inner)) :
  let y i := Rasterizer.coord_y (Rasterizer.at_index vertex_out i) in
  is_nan (y 0%nat) = false -> is_nan (y 1%nat) = false -> is_nan (y 2%nat) = false ->
  let '(s0, s1, s2) := Rasterizer.order_triangle_vertices vertex_out in
  (s0 < 3 /\ s1 < 3 /\ s2 < 3)%nat
  /\ s0 <> s1 /\ s0 <> s2 /\ s1 <> s2
  /\ F.leb (y s0) (y s1) = true
  /\ F.leb (y s1) (y s2) = true
  /\ (F.eqb (y s0) (y s2) = false -> F.ltb (y s0) (y s2) = true).
Proof.
  intros y. unfold Rasterizer.order_triangle_vertices. cbv zeta.
  repeat match goal with
         | |- context [Rasterizer.coord_y (Rasterizer.at_index vertex_out ?i)] =>
             change (Rasterizer.coord_y (Rasterizer.at_index vertex_out i)) with (y i)
         end.
  clearbody y.
  remember (y 0%nat) as y0 eqn:Y0. remember (y 1%nat) as y1 eqn:Y1.
  remember (y 2%nat) as y2 eqn:Y2. intros N0 N1 N2.
  destruct (SFcompare_total y0 y1 N0 N1) as [c01 H01].
  destruct (SFcompare_total y1 y2 N1 N2) as [c12 H12].
  destruct (SFcompare_total y0 y2 N0 N2) as [c02 H02].
  pose proof (SFcompare_antisym y0 y1) as H10. rewrite H01 in H10.
  pose proof (SFcompare_antisym y1 y2) as H21. rewrite H12 in H21.
  pose proof (SFcompare_antisym y0 y2) as H20. rewrite H02 in H20.
  pose proof (SFcompare_refl y0 N0) as H00.
  pose proof (SFcompare_refl y1 N1) as H11.
  pose proof (SFcompare_refl y2 N2) as H22.
  pose proof (SFcompare_trans y0 y1 y2) as T012.
  pose proof (SFcompare_trans y1 y2 y0) as T120.
  pose proof (SFcompare_trans y2 y0 y1) as T201.
  pose proof (SFcompare_eq_l y0 y1 y2) as E012.
  pose proof (SFcompare_eq_l y1 y2 y0) as E120.
  pose proof (SFcompare_eq_l y0 y2 y1) as E021.
  unfold F.ltb, F.gtb, F.eqb, F.leb, SFltb, SFeqb, SFleb.
  destruct c01, c12, c02; cbn [option_map CompOpp] in *;
    repeat (rewrite ?H01, ?H12, ?H02, ?H10, ?H21, ?H20, ?H00, ?H11, ?H22;
            cbn [Nat.eqb negb andb]; rewrite <- ?Y0, <- ?Y1, <- ?Y2);
    try solve [repeat split; intros;
               (lia || discriminate || reflexivity || congruence)];
    exfalso;
    first [ specialize (T012 _ H01 H12); congruence
          | specialize (T120 _ H12 H20); congruence
          | specialize (T201 _ H20 H01); congruence
          | specialize (E012 H01); congruence
          | specialize (E120 H12); congruence
          | specialize (E021 H02); congruence ].
Qed.

End VertexOrder.

(** ** Batching *)

Section Batching.
Context {VertexInputType Inner : Type} {InnerOps : Interpolable Inner}.
Variable vertex_shader_ : VertexInputType -> VertexOut Inner.
Variable fragment_shader_ : Inner -> float4.t.
Variable clamping_method : ClampingMethod.t.

Local Abbreviation rasterizer := (Rasterizer.t (InterfaceInnerType := Inner)).
Local Abbreviation rasterline := (Rasterizer.RasterlineType (InterfaceInnerType := Inner)).
Local Abbreviation render_rasterline := (Rasterizer.render_rasterline fragment_shader_).
Local Abbreviation flush := (Rasterizer.flush fragment_shader_).
Local Abbreviation render_image := (Pipeline.render_image fragment_shader_).
Local Abbreviation render_all := (Pipeline.render_all fragment_shader_).
Local Abbreviation settled := (Pipeline.settled fragment_shader_).

Implicit Types self s : rasterizer.
Implicit Types r : rasterline.

(** X1.  [flush] twice is [flush] once: the second call finds nothing pending and
    returns without rendering or counting. *)
Theorem flush_idempotent self : flush (flush self) = flush self.
Proof.
  unfold Rasterizer.flush at 1.
  replace (Rasterlines.is_empty (Rasterizer.rasterlines_ (flush self))) with true;
    [reflexivity|].
  symmetry. apply is_empty_nil. apply flush_pending.
Qed.

(** X2.  A rasterline whose end column is not after its start column renders
    nothing: [render_rasterline] returns the rasterizer as it was. *)
Theorem render_rasterline_empty r self :
  Rasterline.end_x r <= Rasterline.start_x r ->
  render_rasterline r self = self.
Proof.
  intros Hle. unfold Rasterizer.render_rasterline.
  replace (Z.to_nat (Rasterline.end_x r - Rasterline.start_x r)) with 0%nat by lia.
  destruct self; reflexivity.
Qed.

Lemma render_fold_image (rs : list rasterline) self :
  Rasterizer.image_buffer_ (fold_left (fun s r => render_rasterline r s) rs self)
  = render_all rs (Rasterizer.image_buffer_ self).
Proof.
  revert self. induction rs as [|r rs IH]; intros self; [reflexivity|].
  cbn [fold_left]. rewrite IH. reflexivity.
Qed.

Lemma flush_image self : Rasterizer.image_buffer_ (flush self) = settled self.
Proof.
  unfold Rasterizer.flush, Pipeline.settled.
  destruct (Rasterlines.is_empty _) eqn:He.
  - apply is_empty_nil in He. rewrite He. reflexivity.
  - cbv zeta. cbn [Rasterizer.image_buffer_]. rewrite render_fold_image. reflexivity.
Qed.

Lemma settled_flush self : settled (flush self) = settled self.
Proof.
  unfold Pipeline.settled at 1. rewrite flush_pending. cbn. apply flush_image.
Qed.

Lemma settled_append (size : Z) r self :
  settled (Rasterizer.append fragment_shader_ size r self) = render_image r (settled self).
Proof.
  rewrite append_unfold. cbv zeta.
  assert (Hgrown :
    settled (Rasterizer.mk
               (Rasterlines.mk (Rasterlines.buffer (Rasterizer.rasterlines_ self) ++ [r]))
               (Rasterizer.image_buffer_ self) (Rasterizer.stats self))
    = render_image r (settled self)).
  { unfold Pipeline.settled, Pipeline.render_all. cbn.
    rewrite fold_left_app. reflexivity. }
  destruct (_ =? _); [rewrite settled_flush|]; exact Hgrown.
Qed.

Lemma settled_appends (size : Z) (rs : list rasterline) self :
  settled (Rasterizer.appends fragment_shader_ size rs self)
  = render_all rs (settled self).
Proof.
  revert self. induction rs as [|r rs IH]; intros self; [reflexivity|].
  cbn [Rasterizer.appends fold_left].
  fold (Rasterizer.appends fragment_shader_ size rs
          (Rasterizer.append fragment_shader_ size r self)).
  rewrite IH, settled_append. reflexivity.
Qed.

(** X3.  Buffering loses and reorders nothing: whatever the buffer size, after any
    run of [append] calls followed by [flush] (or by the destructor) the image
    is the one obtained by rendering the rasterlines that were pending and then
    the appended ones, first to last, straight onto the image. *)
Theorem flush_appends_image (size : Z) (rs : list rasterline) self :
  Rasterizer.image_buffer_
    (Pipeline.destroy fragment_shader_
       (Rasterizer.appends fragment_shader_ size rs self))
  = render_all (Rasterlines.buffer (Rasterizer.rasterlines_ self) ++ rs)
               (Rasterizer.image_buffer_ self)
  /\ Rasterlines.buffer
       (Rasterizer.rasterlines_
          (Pipeline.destroy fragment_shader_
             (Rasterizer.appends fragment_shader_ size rs self))) = [].
Proof.
  unfold Pipeline.destroy. split; [|apply flush_pending].
  rewrite flush_image, settled_appends.
  unfold Pipeline.settled, Pipeline.render_all. rewrite fold_left_app. reflexivity.
Qed.

Lemma append_step (size : Z) r self :
  Rasterizer.pending_size self < size ->
  let self' := Rasterizer.append fragment_shader_ size r self in
  (Rasterizer.pending_size self + 1 = size
   /\ Rasterizer.pending_size self' = 0
   /\ Stats.flushes (Rasterizer.stats self')
      = Stats.flushes (Rasterizer.stats self) + 1)
  \/ (Rasterizer.pending_size self + 1 < size
      /\ Rasterizer.pending_size self' = Rasterizer.pending_size self + 1
      /\ Stats.flushes (Rasterizer.stats self')
         = Stats.flushes (Rasterizer.stats self)).
Proof.
  intros Hlt. cbv zeta. rewrite append_unfold. cbv zeta.
  destruct (_ =? _) eqn:He; [left; apply Z.eqb_eq in He|right; apply Z.eqb_neq in He].
  - split; [exact He|]. split.
    + unfold Rasterizer.pending_size. rewrite flush_pending. reflexivity.
    + match goal with
      | |- context [flush ?a] => destruct (flush_frame fragment_shader_ a) as (Hf & _)
      end.
      cbv zeta in Hf. rewrite Hf.
      cbn [Rasterizer.rasterlines_ Rasterizer.stats].
      unfold Rasterlines.is_empty. cbn [Rasterlines.buffer].
      destruct (Vector.is_empty _) eqn:Hemp; [|reflexivity].
      apply is_empty_nil in Hemp.
      destruct (Rasterlines.buffer (Rasterizer.rasterlines_ self)); discriminate.
  - split; [lia|]. split; [|reflexivity].
    unfold Rasterizer.pending_size, Vector.size. cbn.
    rewrite length_app. cbn [length]. lia.
Qed.

(** X4.  Counting: with fewer than [size] rasterlines pending, [n] calls of
    [append] leave [(pending + n) mod size] rasterlines pending and advance
    the flush counter by [(pending + n) / size]. *)
Theorem appends_counts (size : Z) (rs : list rasterline) self :
  Rasterizer.pending_size self < size ->
  let n := Z.of_nat (length rs) in
  let self' := Rasterizer.appends fragment_shader_ size rs self in
  Rasterizer.pending_size self' = (Rasterizer.pending_size self + n) mod size
  /\ Stats.flushes (Rasterizer.stats self')
     = Stats.flushes (Rasterizer.stats self) + (Rasterizer.pending_size self + n) / size.
Proof.
  revert self. induction rs as [|r rs IH]; intros self Hlt; cbv zeta;
    assert (H0 : 0 <= Rasterizer.pending_size self)
      by (unfold Rasterizer.pending_size, Vector.size; lia).
  - cbn. rewrite Z.add_0_r, Z.mod_small, Z.div_small by lia. lia.
  - cbn [Rasterizer.appends fold_left].
    fold (Rasterizer.appends fragment_shader_ size rs
            (Rasterizer.append fragment_shader_ size r self)).
    specialize (IH (Rasterizer.append fragment_shader_ size r self)
                   (append_pending_below fragment_shader_ size r self Hlt)).
    cbv zeta in IH. destruct IH as [IHp IHf]. rewrite IHp, IHf.
    replace (Z.of_nat (length (r :: rs))) with (Z.of_nat (length rs) + 1)
      by (cbn [length]; lia).
    destruct (append_step size r self Hlt) as [(He & Hp & Hf)|(He & Hp & Hf)];
      rewrite Hp, Hf.
    + replace (Rasterizer.pending_size self + (Z.of_nat (length rs) + 1))
        with (Z.of_nat (length rs) + 1 * size) by lia.
      rewrite Z.mod_add, Z.div_add by lia. cbn [Z.add]. split; lia.
    + replace (Rasterizer.pending_size self + 1 + Z.of_nat (length rs))
        with (Rasterizer.pending_size self + (Z.of_nat (length rs) + 1)) by lia.
      split; reflexivity.
Qed.

(** *** The buffer size does not show in the result *)

Lemma render_all_dims (rs : list rasterline) (im : ImBuf.t) :
  ImBuf.x (render_all rs im) = ImBuf.x im
  /\ ImBuf.y (render_all rs im) = ImBuf.y im
  /\ ImBuf.channels (render_all rs im) = ImBuf.channels im.
Proof.
  revert im. induction rs as [|r rs IH]; intros im; [repeat split|].
  unfold Pipeline.render_all. cbn [fold_left].
  fold (render_all rs (render_image r im)).
  destruct (IH (render_image r im)) as (Hx & Hy & Hc).
  pose proof (render_columns_dims fragment_shader_
                (Z.to_nat (Rasterline.end_x r - Rasterline.start_x r)) r
                (Rasterline.start_x r) (Rasterline.start_data r) im) as Hd.
  cbv zeta in Hd. fold (render_image r im) in Hd.
  destruct Hd as (Dx & Dy & Dc).
  rewrite Hx, Hy, Hc, Dx, Dy, Dc. repeat split.
Qed.

Lemma same_outcome_dims (a b : rasterizer) :
  Pipeline.same_outcome fragment_shader_ a b ->
  ImBuf.x (Rasterizer.image_buffer_ a) = ImBuf.x (Rasterizer.image_buffer_ b)
  /\ ImBuf.y (Rasterizer.image_buffer_ a) = ImBuf.y (Rasterizer.image_buffer_ b).
Proof.
  intros (Hs & _). unfold Pipeline.settled in Hs.
  destruct (render_all_dims (Rasterlines.buffer (Rasterizer.rasterlines_ a))
              (Rasterizer.image_buffer_ a)) as (Ax & Ay & _).
  destruct (render_all_dims (Rasterlines.buffer (Rasterizer.rasterlines_ b))
              (Rasterizer.image_buffer_ b)) as (Bx & By & _).
  rewrite <- Ax, <- Ay, <- Bx, <- By, Hs. split; reflexivity.
Qed.

Lemma clamped_rasterline_same_outcome
    y start_x end_x (start_data end_data : Inner) (a b : rasterizer) :
  Pipeline.same_outcome fragment_shader_ a b ->
  fst (Rasterizer.clamped_rasterline clamping_method y start_x end_x start_data end_data a)
  = fst (Rasterizer.clamped_rasterline clamping_method y start_x end_x start_data end_data b)
  /\ Pipeline.same_outcome fragment_shader_
       (snd (Rasterizer.clamped_rasterline clamping_method y start_x end_x
               start_data end_data a))
       (snd (Rasterizer.clamped_rasterline clamping_method y start_x end_x
               start_data end_data b)).
Proof.
  intros Hab. destruct (same_outcome_dims a b Hab) as [Hx _].
  destruct Hab as (Hs & H1 & H2 & H3 & H4 & H5).
  unfold Rasterizer.clamped_rasterline.
  cbn [Rasterizer.image_buffer_ Rasterizer.with_stats]. rewrite Hx.
  unfold Pipeline.same_outcome, Pipeline.settled in *.
  destruct (F.geb start_x end_x); [cbn; repeat split; congruence|].
  destruct (F.ltb end_x (F.of_int 0)); [cbn; repeat split; congruence|].
  destruct (F.geb start_x _); [cbn; repeat split; congruence|].
  destruct (_ <? 0); destruct (_ >? _); cbn; repeat split; congruence.
Qed.

Lemma append_same_outcome (size1 size2 : Z) r (a b : rasterizer) :
  Pipeline.same_outcome fragment_shader_ a b ->
  Pipeline.same_outcome fragment_shader_
    (Rasterizer.append fragment_shader_ size1 r a)
    (Rasterizer.append fragment_shader_ size2 r b).
Proof.
  intros (Hs & H1 & H2 & H3 & H4 & H5).
  pose proof (append_frame fragment_shader_ size1 r a) as Ha.
  pose proof (append_frame fragment_shader_ size2 r b) as Hb.
  cbv zeta in Ha, Hb.
  destruct Ha as (A1 & A2 & A3 & A4 & A5 & _).
  destruct Hb as (B1 & B2 & B3 & B4 & B5 & _).
  unfold Pipeline.same_outcome.
  rewrite !settled_append, Hs, A1, A2, A3, A4, A5, B1, B2, B3, B4, B5.
  repeat split; assumption.
Qed.

Lemma flush_same_outcome (a b : rasterizer) :
  Pipeline.same_outcome fragment_shader_ a b ->
  Pipeline.same_outcome fragment_shader_ (flush a) (flush b).
Proof.
  intros (Hs & H1 & H2 & H3 & H4 & H5).
  pose proof (flush_frame fragment_shader_ a) as Ha.
  pose proof (flush_frame fragment_shader_ b) as Hb.
  cbv zeta in Ha, Hb.
  destruct Ha as (_ & A1 & A2 & A3 & A4 & A5 & _).
  destruct Hb as (_ & B1 & B2 & B3 & B4 & B5 & _).
  unfold Pipeline.same_outcome.
  rewrite !settled_flush, Hs, A1, A2, A3, A4, A5, B1, B2, B3, B4, B5.
  repeat split; assumption.
Qed.

Lemma scanline_same_outcome (size1 size2 : Z) left_add right_add
    (sc1 sc2 : Rasterizer.scan) (v : Z) :
  Rasterizer.scan_left sc1 = Rasterizer.scan_left sc2 ->
  Rasterizer.scan_right sc1 = Rasterizer.scan_right sc2 ->
  Pipeline.same_outcome fragment_shader_
    (Rasterizer.scan_self sc1) (Rasterizer.scan_self sc2) ->
  let sc1' :=
    Rasterizer.scanline fragment_shader_ size1 clamping_method left_add right_add sc1 v in
  let sc2' :=
    Rasterizer.scanline fragment_shader_ size2 clamping_method left_add right_add sc2 v in
  Rasterizer.scan_left sc1' = Rasterizer.scan_left sc2'
  /\ Rasterizer.scan_right sc1' = Rasterizer.scan_right sc2'
  /\ Pipeline.same_outcome fragment_shader_
       (Rasterizer.scan_self sc1') (Rasterizer.scan_self sc2').
Proof.
  intros Hl Hr Hab. cbv zeta. unfold Rasterizer.scanline.
  cbn [Rasterizer.scan_left Rasterizer.scan_right Rasterizer.scan_self].
  rewrite Hl, Hr. split; [reflexivity|]. split; [reflexivity|].
  destruct (same_outcome_dims _ _ Hab) as [_ Hy]. rewrite Hy.
  destruct (andb _ _); [|exact Hab].
  destruct (clamped_rasterline_same_outcome v
              (Rasterizer.coord_x (Rasterizer.scan_left sc2))
              (Rasterizer.coord_x (Rasterizer.scan_right sc2))
              (VertexOutInterface.data (Rasterizer.scan_left sc2))
              (VertexOutInterface.data (Rasterizer.scan_right sc2))
              _ _ Hab) as [Ho Hs].
  destruct (Rasterizer.clamped_rasterline _ _ _ _ _ _ (Rasterizer.scan_self sc1))
    as [o1 a'].
  destruct (Rasterizer.clamped_rasterline _ _ _ _ _ _ (Rasterizer.scan_self sc2))
    as [o2 b'].
  cbn [fst snd] in Ho, Hs. subst o2.
  destruct o1 as [r|]; [apply append_same_outcome|]; exact Hs.
Qed.

Lemma scanlines_same_outcome (size1 size2 : Z) left_add right_add (vs : list Z)
    (sc1 sc2 : Rasterizer.scan) :
  Rasterizer.scan_left sc1 = Rasterizer.scan_left sc2 ->
  Rasterizer.scan_right sc1 = Rasterizer.scan_right sc2 ->
  Pipeline.same_outcome fragment_shader_
    (Rasterizer.scan_self sc1) (Rasterizer.scan_self sc2) ->
  let sc1' :=
    fold_left (Rasterizer.scanline fragment_shader_ size1 clamping_method
                 left_add right_add) vs sc1 in
  let sc2' :=
    fold_left (Rasterizer.scanline fragment_shader_ size2 clamping_method
                 left_add right_add) vs sc2 in
  Rasterizer.scan_left sc1' = Rasterizer.scan_left sc2'
  /\ Rasterizer.scan_right sc1' = Rasterizer.scan_right sc2'
  /\ Pipeline.same_outcome fragment_shader_
       (Rasterizer.scan_self sc1') (Rasterizer.scan_self sc2').
Proof.
  revert sc1 sc2. induction vs as [|v vs IH]; intros sc1 sc2 Hl Hr Hab; cbv zeta.
  - cbn [fold_left]. split; [exact Hl|]. split; [exact Hr|exact Hab].
  - cbn [fold_left].
    destruct (scanline_same_outcome size1 size2 left_add right_add sc1 sc2 v Hl Hr Hab)
      as (Hl' & Hr' & Hab').
    exact (IH _ _ Hl' Hr' Hab').
Qed.

Lemma rasterize_triangle_same_outcome (size1 size2 : Z) vertex_out (a b : rasterizer) :
  Pipeline.same_outcome fragment_shader_ a b ->
  Pipeline.same_outcome fragment_shader_
    (Rasterizer.rasterize_triangle fragment_shader_ size1 clamping_method vertex_out a)
    (Rasterizer.rasterize_triangle fragment_shader_ size2 clamping_method vertex_out b).
Proof.
  intros Hab. unfold Rasterizer.rasterize_triangle, Rasterizer.scanlines.
  destruct (Rasterizer.edge_setup _ _) as [[[l r] la] ra].
  destruct (scanlines_same_outcome size1 size2 la ra
              (rows (Rasterizer.min_v clamping_method vertex_out)
                    (Rasterizer.mid_v clamping_method vertex_out))
              (Rasterizer.mk_scan l r a) (Rasterizer.mk_scan l r b)
              eq_refl eq_refl Hab) as (Hl & Hr & Hs).
  cbv zeta in Hl, Hr, Hs. rewrite Hl, Hr.
  destruct (Rasterizer.edge_handoff _ _ _ _ _ _) as [[[l2 r2] la2] ra2].
  apply scanlines_same_outcome; try reflexivity. exact Hs.
Qed.

Lemma perform_same_outcome (size1 size2 : Z) (c : Rasterizer.call) (a b : rasterizer) :
  Pipeline.same_outcome fragment_shader_ a b ->
  Pipeline.same_outcome fragment_shader_
    (Rasterizer.perform vertex_shader_ fragment_shader_ size1 clamping_method c a)
    (Rasterizer.perform vertex_shader_ fragment_shader_ size2 clamping_method c b).
Proof.
  intros Hab. destruct c as [p1 p2 p3|]; cbn [Rasterizer.perform];
    [|apply flush_same_outcome, Hab].
  unfold Rasterizer.draw_triangle.
  cbn [Rasterizer.image_buffer_ Rasterizer.with_stats].
  assert (Hvis : forall vo,
    Rasterizer.triangle_not_visible vo (Rasterizer.image_buffer_ a)
    = Rasterizer.triangle_not_visible (InterfaceInnerType := Inner) vo
        (Rasterizer.image_buffer_ b)).
  { intros [[o1 o2] o3]. destruct (same_outcome_dims _ _ Hab) as [Hx Hy].
    unfold Rasterizer.triangle_not_visible. rewrite Hx, Hy. reflexivity. }
  rewrite Hvis.
  assert (Hcounted :
    Pipeline.same_outcome fragment_shader_
      (Rasterizer.with_stats Stats.increase_triangles a)
      (Rasterizer.with_stats Stats.increase_triangles b)).
  { destruct Hab as (Hs & H1 & H2 & H3 & H4 & H5).
    unfold Pipeline.same_outcome, Pipeline.settled in *. cbn.
    repeat split; congruence. }
  destruct (Rasterizer.triangle_not_visible _ _).
  - destruct Hcounted as (Hs & H1 & H2 & H3 & H4 & H5).
    unfold Pipeline.same_outcome, Pipeline.settled in *. cbn in *.
    repeat split; congruence.
  - apply rasterize_triangle_same_outcome, Hcounted.
Qed.

Lemma run_same_outcome (size1 size2 : Z) (calls : list Rasterizer.call)
    (a b : rasterizer) :
  Pipeline.same_outcome fragment_shader_ a b ->
  Pipeline.same_outcome fragment_shader_
    (Rasterizer.run vertex_shader_ fragment_shader_ size1 clamping_method calls a)
    (Rasterizer.run vertex_shader_ fragment_shader_ size2 clamping_method calls b).
Proof.
  revert a b. induction calls as [|c calls IH]; intros a b Hab; [exact Hab|].
  cbn [Rasterizer.run fold_left]. apply IH, perform_same_outcome, Hab.
Qed.

(** X5.  [RasterlinesSize] only decides when pixels are written: after the same
    sequence of [draw_triangle] and [flush] calls and the destructor, two
    rasterizers that differ in nothing but their buffer size have written the
    same image and agree on every counter but the flush counter. *)
Theorem buffer_size_does_not_show (size1 size2 : Z) (calls : list Rasterizer.call) self :
  let a :=
    Pipeline.destroy fragment_shader_
      (Rasterizer.run vertex_shader_ fragment_shader_ size1 clamping_method calls self) in
  let b :=
    Pipeline.destroy fragment_shader_
      (Rasterizer.run vertex_shader_ fragment_shader_ size2 clamping_method calls self) in
  Rasterizer.image_buffer_ a = Rasterizer.image_buffer_ b
  /\ Stats.triangles (Rasterizer.stats a) = Stats.triangles (Rasterizer.stats b)
  /\ Stats.discarded_triangles (Rasterizer.stats a)
     = Stats.discarded_triangles (Rasterizer.stats b)
  /\ Stats.rasterlines (Rasterizer.stats a) = Stats.rasterlines (Rasterizer.stats b)
  /\ Stats.discarded_rasterlines (Rasterizer.stats a)
     = Stats.discarded_rasterlines (Rasterizer.stats b)
  /\ Stats.clamped_rasterlines (Rasterizer.stats a)
     = Stats.clamped_rasterlines (Rasterizer.stats b).
Proof.
  cbv zeta. unfold Pipeline.destroy.
  assert (Hrefl : Pipeline.same_outcome fragment_shader_ self self)
    by (repeat split).
  pose proof (flush_same_outcome _ _
                (run_same_outcome size1 size2 calls self self Hrefl))
    as (Hs & H1 & H2 & H3 & H4 & H5).
  rewrite !settled_flush, <- !flush_image in Hs.
  repeat split; assumption.
Qed.

End Batching.

(** ** Scan conversion and sequences of calls *)

Section ScanConversion.
Context {VertexInputType Inner : Type} {InnerOps : Interpolable Inner}.
Variable vertex_shader_ : VertexInputType -> VertexOut Inner.
Variable fragment_shader_ : Inner -> float4.t.
Variable RasterlinesSize : Z.
Variable clamping_method : ClampingMethod.t.

Local Abbreviation rasterizer := (Rasterizer.t (InterfaceInnerType := Inner)).
Local Abbreviation rasterline := (Rasterizer.RasterlineType (InterfaceInnerType := Inner)).
Local Abbreviation flush := (Rasterizer.flush fragment_shader_).
Local Abbreviation append := (Rasterizer.append fragment_shader_ RasterlinesSize).
Local Abbreviation clamped_rasterline := (Rasterizer.clamped_rasterline clamping_method).
Local Abbreviation scanline :=
  (Rasterizer.scanline fragment_shader_ RasterlinesSize clamping_method).
Local Abbreviation rasterize_triangle :=
  (Rasterizer.rasterize_triangle fragment_shader_ RasterlinesSize clamping_method).
Local Abbreviation draw_triangle :=
  (Rasterizer.draw_triangle vertex_shader_ fragment_shader_ RasterlinesSize
     clamping_method).
Local Abbreviation run :=
  (Rasterizer.run vertex_shader_ fragment_shader_ RasterlinesSize clamping_method).

Implicit Types self s : rasterizer.
Implicit Types r : rasterline.
Implicit Types vertex_out : Rasterizer.vertex_array (InterfaceInnerType := Inner).

(** *** Edge set-up *)

(** X7.  After the edge set-up the x-increment of the right edge is never smaller
    than the one of the left edge, whatever the winding of the triangle. *)
Theorem edge_setup_winding vertex_out :
  let '(_, _, left_add, right_add) :=
    Rasterizer.edge_setup clamping_method vertex_out in
  F.ltb (Rasterizer.coord_x right_add) (Rasterizer.coord_x left_add) = false.
Proof.
  unfold Rasterizer.edge_setup.
  destruct (Rasterizer.sorted_vertices vertex_out) as [[top mid] bottom].
  destruct (F.ltb (Rasterizer.coord_x mid) (Rasterizer.coord_x bottom));
    match goal with
    | |- context [if F.ltb ?a ?b then _ else _] => destruct (F.ltb a b) eqn:Hswap
    end;
    first [exact Hswap | apply ltb_asym; exact Hswap].
Qed.

(** X8.  The scanline anchor distance of the clamping method has no influence on
    what [draw_triangle] does: the product of an increment with that distance
    is formed by [operator*] of the vertex interface, which returns the
    increment. *)
Theorem scanline_anchor_distance_unused
    (scanline_for column_for : float -> Z)
    (distance1 distance2 distance_to_column_anchor : float -> float)
    (p1 p2 p3 : VertexInputType) self :
  Rasterizer.draw_triangle vertex_shader_ fragment_shader_ RasterlinesSize
    (ClampingMethod.mk scanline_for column_for distance1 distance_to_column_anchor)
    p1 p2 p3 self
  = Rasterizer.draw_triangle vertex_shader_ fragment_shader_ RasterlinesSize
      (ClampingMethod.mk scanline_for column_for distance2 distance_to_column_anchor)
      p1 p2 p3 self.
Proof. reflexivity. Qed.

(** *** Triangles without height *)

Lemma rows_empty (lo hi : Z) : hi <= lo -> rows lo hi = [].
Proof.
  intros Hle. unfold rows. replace (Z.to_nat (hi - lo)) with 0%nat by lia. reflexivity.
Qed.

Lemma rasterize_triangle_flat vertex_out self (y : float) :
  (forall i, Rasterizer.coord_y (Rasterizer.at_index vertex_out i) = y) ->
  rasterize_triangle vertex_out self = self.
Proof.
  intros Hy.
  assert (Hmin : Rasterizer.min_v clamping_method vertex_out
                 = ClampingMethod.scanline_for clamping_method y).
  { unfold Rasterizer.min_v, Rasterizer.sorted_vertices.
    destruct (Rasterizer.order_triangle_vertices vertex_out) as [[i0 i1] i2].
    rewrite Hy. reflexivity. }
  assert (Hmid : Rasterizer.mid_v clamping_method vertex_out
                 = ClampingMethod.scanline_for clamping_method y).
  { unfold Rasterizer.mid_v, Rasterizer.sorted_vertices.
    destruct (Rasterizer.order_triangle_vertices vertex_out) as [[i0 i1] i2].
    rewrite Hy. reflexivity. }
  assert (Hmax : Rasterizer.max_v clamping_method vertex_out
                 = ClampingMethod.scanline_for clamping_method y - 1).
  { unfold Rasterizer.max_v, Rasterizer.sorted_vertices.
    destruct (Rasterizer.order_triangle_vertices vertex_out) as [[i0 i1] i2].
    rewrite Hy. reflexivity. }
  unfold Rasterizer.rasterize_triangle, Rasterizer.scanlines.
  rewrite Hmin, Hmid, Hmax.
  destruct (Rasterizer.edge_setup _ _) as [[[l r] la] ra].
  rewrite (rows_empty _ _ (Z.le_refl _)). cbn [fold_left Rasterizer.scan_left
    Rasterizer.scan_right Rasterizer.scan_self].
  destruct (Rasterizer.edge_handoff _ _ _ _ _ _) as [[[l2 r2] la2] ra2].
  rewrite rows_empty by lia. reflexivity.
Qed.

(** X9.  A triangle whose three vertices come out of the vertex stage with the same
    y-coordinate produces no rasterline at all: [draw_triangle] leaves the
    pending rasterlines, the image and every rasterline and flush counter as
    they were. *)
Theorem draw_triangle_flat (p1 p2 p3 : VertexInputType) self :
  Rasterizer.coord_y (vertex_shader_ p1) = Rasterizer.coord_y (vertex_shader_ p2) ->
  Rasterizer.coord_y (vertex_shader_ p2) = Rasterizer.coord_y (vertex_shader_ p3) ->
  let self' := draw_triangle p1 p2 p3 self in
  Rasterizer.rasterlines_ self' = Rasterizer.rasterlines_ self
  /\ Rasterizer.image_buffer_ self' = Rasterizer.image_buffer_ self
  /\ Stats.rasterlines (Rasterizer.stats self') = Stats.rasterlines (Rasterizer.stats self)
  /\ Stats.discarded_rasterlines (Rasterizer.stats self')
     = Stats.discarded_rasterlines (Rasterizer.stats self)
  /\ Stats.clamped_rasterlines (Rasterizer.stats self')
     = Stats.clamped_rasterlines (Rasterizer.stats self)
  /\ Stats.flushes (Rasterizer.stats self') = Stats.flushes (Rasterizer.stats self).
Proof.
  intros H12 H23. cbv zeta. unfold Rasterizer.draw_triangle.
  destruct (Rasterizer.triangle_not_visible _ _); [cbn; repeat split|].
  rewrite (rasterize_triangle_flat _ _ (Rasterizer.coord_y (vertex_shader_ p1))).
  - cbn. repeat split.
  - intros [|[|i]]; cbn [Rasterizer.at_index]; congruence.
Qed.

(** *** Counting rasterlines *)

Lemma scanline_seen left_add right_add (sc : Rasterizer.scan) (v : Z) :
  let sc' := scanline left_add right_add sc v in
  ImBuf.y (Rasterizer.image_buffer_ (Rasterizer.scan_self sc'))
  = ImBuf.y (Rasterizer.image_buffer_ (Rasterizer.scan_self sc))
  /\ Stats.rasterlines (Rasterizer.stats (Rasterizer.scan_self sc'))
     = Stats.rasterlines (Rasterizer.stats (Rasterizer.scan_self sc))
       + (if Pipeline.inside
               (ImBuf.y (Rasterizer.image_buffer_ (Rasterizer.scan_self sc))) v
          then 1 else 0).
Proof.
  cbv zeta. unfold Rasterizer.scanline, Pipeline.inside.
  cbn [Rasterizer.scan_self].
  destruct (andb _ _); [|split; [reflexivity|lia]].
  match goal with
  | |- context [Rasterizer.clamped_rasterline ?cm ?y ?a ?b ?c ?d ?s] =>
      pose proof (clamped_rasterline_frame fragment_shader_ cm y a b c d s) as Hc;
      destruct (Rasterizer.clamped_rasterline cm y a b c d s) as [[r|] s']
  end; cbv zeta in Hc; cbn [snd] in Hc;
    destruct Hc as (_ & Him & _ & _ & _ & Hseen).
  - pose proof (append_frame fragment_shader_ RasterlinesSize r s') as Ha.
    cbv zeta in Ha. destruct Ha as (_ & _ & A3 & _ & _ & _ & Ay).
    rewrite Ay, A3, Him, Hseen. split; reflexivity.
  - rewrite Him, Hseen. split; reflexivity.
Qed.

Lemma scanlines_seen left_add right_add (vs : list Z) (sc : Rasterizer.scan) :
  let sc' := fold_left (scanline left_add right_add) vs sc in
  let height := ImBuf.y (Rasterizer.image_buffer_ (Rasterizer.scan_self sc)) in
  ImBuf.y (Rasterizer.image_buffer_ (Rasterizer.scan_self sc')) = height
  /\ Stats.rasterlines (Rasterizer.stats (Rasterizer.scan_self sc'))
     = Stats.rasterlines (Rasterizer.stats (Rasterizer.scan_self sc))
       + Z.of_nat (length (filter (Pipeline.inside height) vs)).
Proof.
  revert sc. induction vs as [|v vs IH]; intros sc; cbv zeta.
  - cbn. split; [reflexivity|lia].
  - cbn [fold_left filter].
    destruct (IH (scanline left_add right_add sc v)) as [Hy Hn]. cbv zeta in Hy, Hn.
    destruct (scanline_seen left_add right_add sc v) as [Sy Sn]. cbv zeta in Sy, Sn.
    rewrite Hy, Hn, Sy, Sn. split; [reflexivity|].
    destruct (Pipeline.inside _ v); cbn [length]; lia.
Qed.

(** X10.  The counter of rasterlines seen advances, per [draw_triangle], by the
    number of rows the two scanline loops visit that are rows of the buffer,
    and by nothing when the triangle is discarded. *)
Theorem draw_triangle_rasterlines_seen (p1 p2 p3 : VertexInputType) self :
  let vertex_out := (vertex_shader_ p1, vertex_shader_ p2, vertex_shader_ p3) in
  let height := ImBuf.y (Rasterizer.image_buffer_ self) in
  let visited :=
    Rasterizer.phase1_rows clamping_method vertex_out
    ++ Rasterizer.phase2_rows clamping_method vertex_out in
  Stats.rasterlines (Rasterizer.stats (draw_triangle p1 p2 p3 self))
  = Stats.rasterlines (Rasterizer.stats self)
    + (if Rasterizer.triangle_not_visible vertex_out (Rasterizer.image_buffer_ self)
       then 0
       else Z.of_nat (length (filter (Pipeline.inside height) visited))).
Proof.
  cbv zeta. unfold Rasterizer.draw_triangle.
  cbn [Rasterizer.image_buffer_ Rasterizer.with_stats].
  destruct (Rasterizer.triangle_not_visible _ _); [cbn; lia|].
  unfold Rasterizer.rasterize_triangle, Rasterizer.scanlines,
    Rasterizer.phase1_rows, Rasterizer.phase2_rows.
  destruct (Rasterizer.edge_setup _ _) as [[[l r] la] ra].
  match goal with
  | |- context [fold_left (scanline la ra) ?vs ?sc] =>
      destruct (scanlines_seen la ra vs sc) as [Hy1 Hn1];
      cbv zeta in Hy1, Hn1; cbn [Rasterizer.scan_self Rasterizer.image_buffer_
        Rasterizer.stats] in Hy1, Hn1;
      set (s1 := fold_left (scanline la ra) vs sc) in *
  end.
  destruct (Rasterizer.edge_handoff _ _ _ _ _ _) as [[[l2 r2] la2] ra2].
  match goal with
  | |- context [fold_left (scanline la2 ra2) ?vs ?sc] =>
      destruct (scanlines_seen la2 ra2 vs sc) as [Hy2 Hn2];
      cbv zeta in Hy2, Hn2; cbn [Rasterizer.scan_self] in Hy2, Hn2
  end.
  rewrite Hn2, Hn1, Hy1. rewrite filter_app, length_app. cbn. lia.
Qed.

(** *** The counters over a sequence of calls *)

Lemma clamped_rasterline_counters y start_x end_x (start_data end_data : Inner) self :
  let before := Rasterizer.stats self in
  let after :=
    Rasterizer.stats (snd (clamped_rasterline y start_x end_x start_data end_data self)) in
  Stats.triangles after = Stats.triangles before
  /\ Stats.discarded_triangles after = Stats.discarded_triangles before
  /\ Stats.flushes after = Stats.flushes before
  /\ Stats.rasterlines after = Stats.rasterlines before + 1
  /\ ((Stats.discarded_rasterlines after = Stats.discarded_rasterlines before + 1
       /\ Stats.clamped_rasterlines after = Stats.clamped_rasterlines before)
      \/ (Stats.discarded_rasterlines after = Stats.discarded_rasterlines before
          /\ Stats.clamped_rasterlines before <= Stats.clamped_rasterlines after
             <= Stats.clamped_rasterlines before + 1)).
Proof.
  cbv zeta. unfold Rasterizer.clamped_rasterline.
  destruct (F.geb start_x end_x); [cbn; repeat split; left; split; reflexivity|].
  destruct (F.ltb end_x (F.of_int 0)); [cbn; repeat split; left; split; reflexivity|].
  destruct (F.geb start_x _); [cbn; repeat split; left; split; reflexivity|].
  destruct (_ <? 0); destruct (_ >? _); cbn; repeat split; right; lia.
Qed.

Lemma append_counters r self :
  let before := Rasterizer.stats self in
  let after := Rasterizer.stats (append r self) in
  Stats.triangles after = Stats.triangles before
  /\ Stats.discarded_triangles after = Stats.discarded_triangles before
  /\ Stats.rasterlines after = Stats.rasterlines before
  /\ Stats.discarded_rasterlines after = Stats.discarded_rasterlines before
  /\ Stats.clamped_rasterlines after = Stats.clamped_rasterlines before
  /\ Stats.flushes before <= Stats.flushes after.
Proof.
  cbv zeta.
  pose proof (append_frame fragment_shader_ RasterlinesSize r self) as Ha.
  cbv zeta in Ha. destruct Ha as (A1 & A2 & A3 & A4 & A5 & _).
  repeat split; try assumption.
  rewrite append_unfold. cbv zeta. destruct (_ =? _); [|cbn; lia].
  match goal with
  | |- context [flush ?a] => destruct (flush_frame fragment_shader_ a) as (Hf & _)
  end.
  cbv zeta in Hf. rewrite Hf. cbn [Rasterizer.stats].
  destruct (Rasterlines.is_empty _); lia.
Qed.

Lemma perform_counters (c : Rasterizer.call) self :
  let before := Rasterizer.stats self in
  let after :=
    Rasterizer.stats
      (Rasterizer.perform vertex_shader_ fragment_shader_ RasterlinesSize
         clamping_method c self) in
  Pipeline.counters_advance before after
  /\ Pipeline.counters_consistent before after
  /\ Stats.triangles after
     = Stats.triangles before
       + match c with Rasterizer.DrawTriangle _ _ _ => 1 | Rasterizer.Flush => 0 end.
Proof.
  cbv zeta. destruct c as [p1 p2 p3|]; cbn [Rasterizer.perform].
  - unfold Rasterizer.draw_triangle.
    destruct (Rasterizer.triangle_not_visible _ _).
    + unfold Pipeline.counters_advance, Pipeline.counters_consistent. cbn.
      repeat split; lia.
    + set (start := Rasterizer.with_stats Stats.increase_triangles self).
      assert (Hinv :
        Pipeline.counters_advance (Rasterizer.stats start)
          (Rasterizer.stats (rasterize_triangle
             (vertex_shader_ p1, vertex_shader_ p2, vertex_shader_ p3) start))
        /\ Pipeline.counters_consistent (Rasterizer.stats start)
             (Rasterizer.stats (rasterize_triangle
                (vertex_shader_ p1, vertex_shader_ p2, vertex_shader_ p3) start))
        /\ Stats.triangles
             (Rasterizer.stats (rasterize_triangle
                (vertex_shader_ p1, vertex_shader_ p2, vertex_shader_ p3) start))
           = Stats.triangles (Rasterizer.stats start)
        /\ Stats.discarded_triangles
             (Rasterizer.stats (rasterize_triangle
                (vertex_shader_ p1, vertex_shader_ p2, vertex_shader_ p3) start))
           = Stats.discarded_triangles (Rasterizer.stats start)).
      { apply (rasterize_triangle_invariant fragment_shader_ RasterlinesSize
                 clamping_method
                 (fun s =>
                    Pipeline.counters_advance (Rasterizer.stats start) (Rasterizer.stats s)
                    /\ Pipeline.counters_consistent (Rasterizer.stats start)
                         (Rasterizer.stats s)
                    /\ Stats.triangles (Rasterizer.stats s)
                       = Stats.triangles (Rasterizer.stats start)
                    /\ Stats.discarded_triangles (Rasterizer.stats s)
                       = Stats.discarded_triangles (Rasterizer.stats start))).
        - intros y sx ex sd ed s (Hadv & Hcons & Ht & Hd) _.
          pose proof (clamped_rasterline_counters y sx ex sd ed s) as Hc.
          cbv zeta in Hc.
          destruct (clamped_rasterline y sx ex sd ed s) as [[r|] s']; cbn [snd] in Hc;
            [pose proof (append_counters r s') as Ha; cbv zeta in Ha|];
            unfold Pipeline.counters_advance, Pipeline.counters_consistent in *;
            repeat split; lia.
        - unfold Pipeline.counters_advance, Pipeline.counters_consistent.
          repeat split; lia. }
      destruct Hinv as (Hadv & Hcons & Ht & Hd).
      unfold Pipeline.counters_advance, Pipeline.counters_consistent in *.
      subst start. cbn in *. repeat split; lia.
  - pose proof (flush_frame fragment_shader_ self) as Hf. cbv zeta in Hf.
    unfold Pipeline.counters_advance, Pipeline.counters_consistent.
    destruct (Rasterlines.is_empty _); repeat split; lia.
Qed.

Lemma run_counters (calls : list Rasterizer.call) self :
  let before := Rasterizer.stats self in
  let after := Rasterizer.stats (run calls self) in
  Pipeline.counters_advance before after
  /\ Pipeline.counters_consistent before after
  /\ Stats.triangles after = Stats.triangles before + Pipeline.draws calls.
Proof.
  revert self. induction calls as [|c calls IH]; intros self; cbv zeta.
  - unfold Pipeline.counters_advance, Pipeline.counters_consistent, Pipeline.draws.
    cbn. repeat split; lia.
  - cbn [Rasterizer.run fold_left].
    pose proof (perform_counters c self) as Hc. cbv zeta in Hc.
    specialize (IH (Rasterizer.perform vertex_shader_ fragment_shader_
                      RasterlinesSize clamping_method c self)).
    cbv zeta in IH. unfold Rasterizer.run in IH.
    assert (Hd : Pipeline.draws (c :: calls)
                 = Pipeline.draws calls
                   + match c with
                     | Rasterizer.DrawTriangle _ _ _ => 1
                     | Rasterizer.Flush => 0
                     end).
    { unfold Pipeline.draws. destruct c; cbn [filter length]; lia. }
    unfold Pipeline.counters_advance, Pipeline.counters_consistent in *.
    repeat split; lia.
Qed.

(** X11.  No counter is ever decremented: after any sequence of [draw_triangle] and
    [flush] calls each of the six counters is at least what it was. *)
Theorem counters_never_decrease (calls : list Rasterizer.call) self :
  Pipeline.counters_advance (Rasterizer.stats self) (Rasterizer.stats (run calls self)).
Proof. apply (run_counters calls self). Qed.

(** X12.  The counters stay consistent over any sequence of calls: no more triangles
    are counted as discarded than as seen, and the rasterlines counted as
    discarded and as clamped together are no more than those counted as
    seen. *)
Theorem counters_stay_consistent (calls : list Rasterizer.call) self :
  Pipeline.counters_consistent (Rasterizer.stats self)
    (Rasterizer.stats (run calls self)).
Proof. apply (run_counters calls self). Qed.

(** X13.  Over a sequence of calls the counter of triangles seen advances by the
    number of [draw_triangle] calls in it; [flush] calls do not count. *)
Theorem run_counts_draws (calls : list Rasterizer.call) self :
  Stats.triangles (Rasterizer.stats (run calls self))
  = Stats.triangles (Rasterizer.stats self) + Pipeline.draws calls.
Proof. apply (run_counters calls self). Qed.

(** *** The extent of the writes *)

Lemma render_image_outside r (im : ImBuf.t) (width height : Z) (i : Z) :
  ImBuf.x im = width -> 0 <= width -> width * height * 4 <= 2 ^ 32 ->
  Rasterizer.within width height r ->
  ~ Pipeline.in_storage width height i ->
  ImBuf.rect_float (Pipeline.render_image fragment_shader_ r im) i
  = ImBuf.rect_float im i.
Proof.
  intros Hx Hw Hfit (Hy & Hs & He) Hout. unfold Pipeline.render_image.
  destruct (Z.le_gt_cases (Rasterline.end_x r) (Rasterline.start_x r)) as [Hle|Hlt].
  - replace (Z.to_nat (Rasterline.end_x r - Rasterline.start_x r)) with 0%nat by lia.
    reflexivity.
  - assert (Hrow : Rasterline.y r * width + Rasterline.end_x r <= width * height)
      by nia.
    rewrite render_columns_get; rewrite ?Hx; try lia.
    destruct (_ <=? _) eqn:H1; destruct (_ <? _) eqn:H2; try reflexivity.
    exfalso. apply Hout. unfold Pipeline.in_storage.
    apply Z.leb_le in H1. apply Z.ltb_lt in H2.
    pose proof (Z.div_mod i 4 ltac:(lia)).
    pose proof (Z.mod_pos_bound i 4 ltac:(lia)).
    assert (0 <= Rasterline.y r * width) by nia.
    lia.
Qed.

Lemma render_all_outside (rs : list rasterline) (im : ImBuf.t) (width height : Z) (i : Z) :
  ImBuf.x im = width -> 0 <= width -> width * height * 4 <= 2 ^ 32 ->
  Forall (Rasterizer.within width height) rs ->
  ~ Pipeline.in_storage width height i ->
  ImBuf.rect_float (Pipeline.render_all fragment_shader_ rs im) i
  = ImBuf.rect_float im i.
Proof.
  intros Hx Hw Hfit Hall Hout. revert im Hx.
  induction Hall as [|r rs Hr Hrs IH]; intros im Hx; [reflexivity|].
  unfold Pipeline.render_all. cbn [fold_left].
  fold (Pipeline.render_all fragment_shader_ rs
          (Pipeline.render_image fragment_shader_ r im)).
  rewrite IH.
  - apply render_image_outside with (width := width) (height := height); assumption.
  - destruct (render_all_dims fragment_shader_ [r] im) as (Dx & _).
    unfold Pipeline.render_all in Dx. cbn [fold_left] in Dx. rewrite Dx. exact Hx.
Qed.

(** The state in which the writes so far stayed in the storage of [origin],
    and everything pending will. *)
Lemma flush_in_storage (origin : ImBuf.t) self :
  let width := ImBuf.x origin in
  let height := ImBuf.y origin in
  0 <= width -> width * height * 4 <= 2 ^ 32 ->
  ImBuf.x (Rasterizer.image_buffer_ self) = width ->
  Forall (Rasterizer.within width height)
         (Rasterlines.buffer (Rasterizer.rasterlines_ self)) ->
  (forall i, ~ Pipeline.in_storage width height i ->
             ImBuf.rect_float (Rasterizer.image_buffer_ self) i
             = ImBuf.rect_float origin i) ->
  forall i, ~ Pipeline.in_storage width height i ->
            ImBuf.rect_float (Rasterizer.image_buffer_ (flush self)) i
            = ImBuf.rect_float origin i.
Proof.
  intros width height Hw Hfit Hx Hall Hsame i Hout.
  rewrite flush_image. unfold Pipeline.settled.
  rewrite (render_all_outside _ _ width height) by assumption.
  apply Hsame, Hout.
Qed.

Section Extent.
Variable origin : ImBuf.t.
Hypothesis width_nonneg : 0 <= ImBuf.x origin.
Hypothesis height_int : 0 <= ImBuf.y origin <= 2 ^ 32.
Hypothesis storage_fits : ImBuf.x origin * ImBuf.y origin * 4 <= 2 ^ 32.

Lemma flush_extent self :
  (ImBuf.x (Rasterizer.image_buffer_ self) = ImBuf.x origin
   /\ ImBuf.y (Rasterizer.image_buffer_ self) = ImBuf.y origin
   /\ Forall (Rasterizer.within (ImBuf.x origin) (ImBuf.y origin))
        (Rasterlines.buffer (Rasterizer.rasterlines_ self))
   /\ forall i, ~ Pipeline.in_storage (ImBuf.x origin) (ImBuf.y origin) i ->
                ImBuf.rect_float (Rasterizer.image_buffer_ self) i
                = ImBuf.rect_float origin i) ->
  ImBuf.x (Rasterizer.image_buffer_ (flush self)) = ImBuf.x origin
  /\ ImBuf.y (Rasterizer.image_buffer_ (flush self)) = ImBuf.y origin
  /\ Forall (Rasterizer.within (ImBuf.x origin) (ImBuf.y origin))
       (Rasterlines.buffer (Rasterizer.rasterlines_ (flush self)))
  /\ forall i, ~ Pipeline.in_storage (ImBuf.x origin) (ImBuf.y origin) i ->
               ImBuf.rect_float (Rasterizer.image_buffer_ (flush self)) i
               = ImBuf.rect_float origin i.
Proof.
  intros (Hx & Hy & Hall & Hsame).
  pose proof (flush_frame fragment_shader_ self) as Hf. cbv zeta in Hf.
  destruct Hf as (_ & _ & _ & _ & _ & _ & Fx & Fy).
  rewrite Fx, Fy, flush_pending.
  split; [exact Hx|]. split; [exact Hy|]. split; [constructor|].
  apply flush_in_storage; assumption.
Qed.

Lemma append_extent r self :
  Rasterizer.within (ImBuf.x origin) (ImBuf.y origin) r ->
  (ImBuf.x (Rasterizer.image_buffer_ self) = ImBuf.x origin
   /\ ImBuf.y (Rasterizer.image_buffer_ self) = ImBuf.y origin
   /\ Forall (Rasterizer.within (ImBuf.x origin) (ImBuf.y origin))
        (Rasterlines.buffer (Rasterizer.rasterlines_ self))
   /\ forall i, ~ Pipeline.in_storage (ImBuf.x origin) (ImBuf.y origin) i ->
                ImBuf.rect_float (Rasterizer.image_buffer_ self) i
                = ImBuf.rect_float origin i) ->
  ImBuf.x (Rasterizer.image_buffer_ (append r self)) = ImBuf.x origin
  /\ ImBuf.y (Rasterizer.image_buffer_ (append r self)) = ImBuf.y origin
  /\ Forall (Rasterizer.within (ImBuf.x origin) (ImBuf.y origin))
       (Rasterlines.buffer (Rasterizer.rasterlines_ (append r self)))
  /\ forall i, ~ Pipeline.in_storage (ImBuf.x origin) (ImBuf.y origin) i ->
               ImBuf.rect_float (Rasterizer.image_buffer_ (append r self)) i
               = ImBuf.rect_float origin i.
Proof.
  intros Hr (Hx & Hy & Hall & Hsame). rewrite append_unfold. cbv zeta.
  assert (Hgrown :
    Forall (Rasterizer.within (ImBuf.x origin) (ImBuf.y origin))
           (Rasterlines.buffer (Rasterizer.rasterlines_ self) ++ [r])).
  { apply Forall_app. split; [exact Hall|]. constructor; [exact Hr|constructor]. }
  destruct (_ =? _).
  - apply flush_extent. cbn. repeat split; assumption.
  - cbn. repeat split; assumption.
Qed.

(** X14.  The writes never leave the image: on an image of [width] by [height]
    pixels (non-negative, the height at most [2^32]) whose storage of
    [width * height * 4] floats can be addressed in 32 bits, and with pending
    rasterlines that lie on it, no sequence of [draw_triangle] and [flush]
    calls changes a location outside that storage; the image keeps its width
    and height, and the rasterlines left pending lie on it. *)
Theorem run_writes_stay_in_storage (calls : list Rasterizer.call) self :
  Rasterizer.image_buffer_ self = origin ->
  Forall (Rasterizer.within (ImBuf.x origin) (ImBuf.y origin))
         (Rasterlines.buffer (Rasterizer.rasterlines_ self)) ->
  let self' := run calls self in
  ImBuf.x (Rasterizer.image_buffer_ self') = ImBuf.x origin
  /\ ImBuf.y (Rasterizer.image_buffer_ self') = ImBuf.y origin
  /\ Forall (Rasterizer.within (ImBuf.x origin) (ImBuf.y origin))
       (Rasterlines.buffer (Rasterizer.rasterlines_ self'))
  /\ forall i, ~ Pipeline.in_storage (ImBuf.x origin) (ImBuf.y origin) i ->
               ImBuf.rect_float (Rasterizer.image_buffer_ self') i
               = ImBuf.rect_float origin i.
Proof.
  intros Him Hall. cbv zeta.
  assert (Hstart :
    ImBuf.x (Rasterizer.image_buffer_ self) = ImBuf.x origin
    /\ ImBuf.y (Rasterizer.image_buffer_ self) = ImBuf.y origin
    /\ Forall (Rasterizer.within (ImBuf.x origin) (ImBuf.y origin))
         (Rasterlines.buffer (Rasterizer.rasterlines_ self))
    /\ forall i, ~ Pipeline.in_storage (ImBuf.x origin) (ImBuf.y origin) i ->
                 ImBuf.rect_float (Rasterizer.image_buffer_ self) i
                 = ImBuf.rect_float origin i)
    by (rewrite Him; repeat split; assumption).
  clear Him Hall. revert self Hstart.
  induction calls as [|c calls IH]; intros self Hstart; [exact Hstart|].
  cbn [Rasterizer.run fold_left]. apply IH.
  destruct c as [p1 p2 p3|]; cbn [Rasterizer.perform]; [|apply flush_extent, Hstart].
  unfold Rasterizer.draw_triangle.
  destruct (Rasterizer.triangle_not_visible _ _); [exact Hstart|].
  apply (rasterize_triangle_invariant fragment_shader_ RasterlinesSize clamping_method
           (fun s =>
              ImBuf.x (Rasterizer.image_buffer_ s) = ImBuf.x origin
              /\ ImBuf.y (Rasterizer.image_buffer_ s) = ImBuf.y origin
              /\ Forall (Rasterizer.within (ImBuf.x origin) (ImBuf.y origin))
                   (Rasterlines.buffer (Rasterizer.rasterlines_ s))
              /\ forall i, ~ Pipeline.in_storage (ImBuf.x origin) (ImBuf.y origin) i ->
                           ImBuf.rect_float (Rasterizer.image_buffer_ s) i
                           = ImBuf.rect_float origin i)); [|exact Hstart].
  intros y sx ex sd ed s (Hx & Hy & Hall & Hsame) Hrow.
  pose proof (clamped_rasterline_frame fragment_shader_ clamping_method
                y sx ex sd ed s) as Hc.
  pose proof (clamped_rasterline_within clamping_method y sx ex sd ed s) as Hin.
  cbv zeta in Hc.
  destruct (clamped_rasterline y sx ex sd ed s) as [[r|] s']; cbn [fst snd] in *;
    destruct Hc as (C1 & C2 & _).
  - apply append_extent.
    + rewrite <- Hx, <- Hy. apply Hin; try reflexivity; try assumption.
      * rewrite Hx. split; [lia|]. rewrite Hy in Hrow.
        change (2 ^ 32) with 4294967296 in *. nia.
      * rewrite Hy. lia.
    + rewrite C1, C2. repeat split; assumption.
  - rewrite C1, C2. repeat split; assumption.
Qed.
End Extent.

End ScanConversion.

(** ** Witnesses of the further properties *)

Lemma order_triangle_vertices_sorted_witness :
  let vertex_out :=
    (Usage.vertex (Usage.point 0 4), Usage.vertex (Usage.point 0 0),
     Usage.vertex (Usage.point 0 2)) in
  let y i := Rasterizer.coord_y (Rasterizer.at_index vertex_out i) in
  (is_nan (y 0%nat) = false /\ is_nan (y 1%nat) = false /\ is_nan (y 2%nat) = false)
  /\ Rasterizer.order_triangle_vertices vertex_out = (1%nat, 2%nat, 0%nat)
  /\ F.leb (y 1%nat) (y 2%nat) = true
  /\ F.leb (y 2%nat) (y 0%nat) = true.
Proof.
  cbv zeta. split; [repeat split; reflexivity|].
  pose proof (order_triangle_vertices_sorted
                (Usage.vertex (Usage.point 0 4), Usage.vertex (Usage.point 0 0),
                 Usage.vertex (Usage.point 0 2))
                eq_refl eq_refl eq_refl) as H.
  assert (Horder :
    Rasterizer.order_triangle_vertices
      (Usage.vertex (Usage.point 0 4), Usage.vertex (Usage.point 0 0),
       Usage.vertex (Usage.point 0 2)) = (1%nat, 2%nat, 0%nat)) by reflexivity.
  rewrite Horder in H. destruct H as (_ & _ & _ & _ & H01 & H12 & _).
  split; [exact Horder|]. split; assumption.
Defined.

Lemma render_rasterline_empty_witness :
  let r := Rasterline.mk 1 3 3 (F.of_int 1) F.zero in
  Rasterline.end_x r <= Rasterline.start_x r
  /\ Rasterizer.render_rasterline Usage.fragment r (Usage.flushed 8 8)
     = Usage.flushed 8 8.
Proof.
  cbv zeta. split; [cbn; lia|].
  apply (render_rasterline_empty Usage.fragment). cbn. lia.
Defined.

Lemma appends_counts_witness :
  let rs :=
    [Rasterline.mk 0 0 1 F.zero F.zero; Rasterline.mk 1 0 1 F.zero F.zero;
     Rasterline.mk 2 0 1 F.zero F.zero] in
  let self' := Rasterizer.appends Usage.fragment 2 rs (Usage.flushed 8 8) in
  Rasterizer.pending_size (Usage.flushed 8 8) < 2
  /\ Rasterizer.pending_size self' = 1
  /\ Stats.flushes (Rasterizer.stats self') = 1.
Proof.
  cbv zeta. split; [reflexivity|].
  exact (appends_counts Usage.fragment 2
           [Rasterline.mk 0 0 1 F.zero F.zero; Rasterline.mk 1 0 1 F.zero F.zero;
            Rasterline.mk 2 0 1 F.zero F.zero]
           (Usage.flushed 8 8) eq_refl).
Defined.

Lemma draw_triangle_flat_witness :
  let self := Usage.flushed 8 8 in
  let self' :=
    Usage.draw_triangle 4096 (Usage.point 0 2) (Usage.point 4 2) (Usage.point 1 2)
      self in
  (Rasterizer.coord_y (Usage.vertex (Usage.point 0 2))
   = Rasterizer.coord_y (Usage.vertex (Usage.point 4 2))
   /\ Rasterizer.coord_y (Usage.vertex (Usage.point 4 2))
      = Rasterizer.coord_y (Usage.vertex (Usage.point 1 2)))
  /\ Rasterizer.rasterlines_ self' = Rasterizer.rasterlines_ self
  /\ Rasterizer.image_buffer_ self' = Rasterizer.image_buffer_ self
  /\ Stats.rasterlines (Rasterizer.stats self') = Stats.rasterlines (Rasterizer.stats self).
Proof.
  cbv zeta. split; [split; reflexivity|].
  destruct (draw_triangle_flat Usage.vertex Usage.fragment 4096
              CenterPixelClampingMethod.method
              (Usage.point 0 2) (Usage.point 4 2) (Usage.point 1 2)
              (Usage.flushed 8 8) eq_refl eq_refl) as (H1 & H2 & H3 & _).
  repeat split; assumption.
Defined.

Lemma run_writes_stay_in_storage_witness :
  let origin := Usage.image 8 8 in
  let self' :=
    Rasterizer.run Usage.vertex Usage.fragment 2 CenterPixelClampingMethod.method
      [Rasterizer.DrawTriangle (Usage.point 0 0) (Usage.point 4 0) (Usage.point 0 4);
       Rasterizer.Flush]
      (Usage.flushed 8 8) in
  (0 <= ImBuf.x origin
   /\ 0 <= ImBuf.y origin <= 2 ^ 32
   /\ ImBuf.x origin * ImBuf.y origin * 4 <= 2 ^ 32)
  /\ ImBuf.x (Rasterizer.image_buffer_ self') = 8
  /\ forall i, ~ Pipeline.in_storage 8 8 i ->
               ImBuf.rect_float (Rasterizer.image_buffer_ self') i = F.zero.
Proof.
  cbv zeta.
  assert (Hw : 0 <= ImBuf.x (Usage.image 8 8)) by (cbn; lia).
  assert (Hh : 0 <= ImBuf.y (Usage.image 8 8) <= 2 ^ 32) by (cbn; lia).
  assert (Hfit : ImBuf.x (Usage.image 8 8) * ImBuf.y (Usage.image 8 8) * 4 <= 2 ^ 32)
    by (cbn; lia).
  split; [repeat split; (exact Hw || exact Hfit || apply Hh)|].
  destruct (run_writes_stay_in_storage Usage.vertex Usage.fragment 2
              CenterPixelClampingMethod.method (Usage.image 8 8) Hw Hh Hfit
              [Rasterizer.DrawTriangle (Usage.point 0 0) (Usage.point 4 0)
                 (Usage.point 0 4);
               Rasterizer.Flush]
              (Usage.flushed 8 8) eq_refl (Forall_nil _))
    as (Hx & _ & _ & Hout).
  split; [exact Hx|]. intros i Hi. exact (Hout i Hi).
Defined.

(** * The columns of the appended rasterlines *)

Lemma geb_false_ltb (a b : float) :
  is_nan a = false -> is_nan b = false -> F.geb a b = false -> F.ltb a b = true.
Proof.
  intros Na Nb. unfold F.geb, F.ltb, SFleb, SFltb.
  destruct (SFcompare_total b a Nb Na) as [c Hc].
  rewrite (SFcompare_antisym b a), Hc.
  destruct c; cbn; congruence.
Qed.

Section OrderedRasterlines.
Context {VertexInputType Inner : Type} {InnerOps : Interpolable Inner}.
Variable vertex_shader_ : VertexInputType -> VertexOut Inner.
Variable fragment_shader_ : Inner -> float4.t.
Variable RasterlinesSize : Z.
Variable clamping_method : ClampingMethod.t.

Local Abbreviation rasterizer := (Rasterizer.t (InterfaceInnerType := Inner)).
Local Abbreviation rasterline := (Rasterizer.RasterlineType (InterfaceInnerType := Inner)).
Local Abbreviation append := (Rasterizer.append fragment_shader_ RasterlinesSize).
Local Abbreviation appends := (Rasterizer.appends fragment_shader_ RasterlinesSize).
Local Abbreviation clamped_rasterline := (Rasterizer.clamped_rasterline clamping_method).
Local Abbreviation scanline :=
  (Rasterizer.scanline fragment_shader_ RasterlinesSize clamping_method).
Local Abbreviation rasterize_triangle :=
  (Rasterizer.rasterize_triangle fragment_shader_ RasterlinesSize clamping_method).
Local Abbreviation draw_triangle :=
  (Rasterizer.draw_triangle vertex_shader_ fragment_shader_ RasterlinesSize
     clamping_method).

Implicit Types self s : rasterizer.
Implicit Types r : rasterline.

(** One call: for a run whose ends are numbers and at which the clamping
    method keeps to its contract, the rasterline that comes back has its start
    column pinned to [0] from below, its end column pinned to the width from
    above, and the two in order. *)
Lemma clamped_rasterline_ordered y start_x end_x (start_data end_data : Inner) self r :
  0 <= y < ImBuf.y (Rasterizer.image_buffer_ self) ->
  0 <= ImBuf.x (Rasterizer.image_buffer_ self) < 2 ^ 32 ->
  ImBuf.y (Rasterizer.image_buffer_ self) <= 2 ^ 32 ->
  Runs.respects clamping_method (ImBuf.x (Rasterizer.image_buffer_ self))
    start_x end_x ->
  fst (clamped_rasterline y start_x end_x start_data end_data self) = Some r ->
  Runs.ordered (ImBuf.x (Rasterizer.image_buffer_ self))
               (ImBuf.y (Rasterizer.image_buffer_ self)) r.
Proof.
  intros Hy Hw Hh (Ns & Ne & Hmon & Hnonneg & Hwidth & Hint).
  unfold Rasterizer.clamped_rasterline.
  destruct (F.geb start_x end_x) eqn:G1; [discriminate|].
  destruct (F.ltb end_x (F.of_int 0)) eqn:G2; [discriminate|].
  cbn [Rasterizer.image_buffer_ Rasterizer.with_stats].
  destruct (F.geb start_x _) eqn:G3; [discriminate|].
  specialize (Hmon (geb_false_ltb _ _ Ns Ne G1)).
  specialize (Hnonneg eq_refl). specialize (Hwidth eq_refl).
  pose proof (wrap32_small _ Hw) as Ew.
  assert (Ey : wrap32 y = y) by (apply wrap32_small; lia).
  assert (Ee : wrap32 (ClampingMethod.column_for clamping_method end_x)
               = ClampingMethod.column_for clamping_method end_x)
    by (apply wrap32_small; change (2 ^ 32) with 4294967296;
        change (2 ^ 31) with 2147483648 in Hint; lia).
  rewrite Ee, Ew.
  destruct (_ <? 0) eqn:Hneg; destruct (_ >? _) eqn:Hgt; cbn [fst];
    intros [= <-]; unfold Runs.ordered; cbn;
    rewrite ?Ey;
    try (apply Z.ltb_ge in Hneg;
         rewrite (wrap32_small (ClampingMethod.column_for clamping_method start_x))
           by lia);
    try (apply Z.ltb_lt in Hneg);
    try (apply Z.gtb_ltb in Hgt; rewrite Z.ltb_ge in Hgt);
    try (rewrite Z.gtb_ltb in Hgt; apply Z.ltb_lt in Hgt);
    change (wrap32 0) with 0;
    repeat split; lia.
Qed.

(** The cursors of a scanline loop do not depend on the rasterizer. *)
Lemma scanlines_cursors left_add right_add (vs : list Z) (sc : Rasterizer.scan) :
  Rasterizer.scan_left (fold_left (scanline left_add right_add) vs sc)
  = Runs.advance left_add (length vs) (Rasterizer.scan_left sc)
  /\ Rasterizer.scan_right (fold_left (scanline left_add right_add) vs sc)
     = Runs.advance right_add (length vs) (Rasterizer.scan_right sc).
Proof.
  revert sc. induction vs as [|v vs IH]; intros sc; [split; reflexivity|].
  cbn [fold_left length]. destruct (IH (scanline left_add right_add sc v)) as [Hl Hr].
  rewrite Hl, Hr. unfold Runs.advance. rewrite !Nat.iter_succ_r. split; reflexivity.
Qed.

(** The invariant rule again, with the per-row obligation only at the cursors
    the loop really has. *)
Lemma steps_invariant (I : rasterizer -> Prop)
    (P : Z -> VertexOut Inner -> VertexOut Inner -> Prop) left_add right_add :
  (forall v left_ right_ s,
      P v left_ right_ -> I s ->
      0 <= v < ImBuf.y (Rasterizer.image_buffer_ s) ->
      match clamped_rasterline v (Rasterizer.coord_x left_) (Rasterizer.coord_x right_)
              (VertexOutInterface.data left_) (VertexOutInterface.data right_) s with
      | (Some r, s') => I (append r s')
      | (None, s') => I s'
      end) ->
  forall (vs : list Z) (sc : Rasterizer.scan),
    Forall (fun step : Z * VertexOut Inner * VertexOut Inner =>
              let '(v, left_, right_) := step in P v left_ right_)
           (Runs.steps left_add right_add vs
              (Rasterizer.scan_left sc) (Rasterizer.scan_right sc)) ->
    I (Rasterizer.scan_self sc) ->
    I (Rasterizer.scan_self (fold_left (scanline left_add right_add) vs sc)).
Proof.
  intros Hrow vs. induction vs as [|v vs IH]; intros sc Hall HI; [exact HI|].
  cbn [fold_left]. cbn [Runs.steps] in Hall.
  apply Forall_cons_iff in Hall. destruct Hall as [Hv Hrest].
  apply IH.
  - unfold Rasterizer.scanline. cbn [Rasterizer.scan_left Rasterizer.scan_right].
    exact Hrest.
  - unfold Rasterizer.scanline. cbn [Rasterizer.scan_self].
    destruct (andb _ _) eqn:Hg; [|exact HI].
    apply andb_true_iff in Hg. destruct Hg as [H0 H1].
    apply Z.leb_le in H0. apply Z.ltb_lt in H1.
    pose proof (Hrow v _ _ _ Hv HI (conj H0 H1)) as Hstep.
    destruct (clamped_rasterline _ _ _ _ _ _) as [[r|] s']; exact Hstep.
Qed.

Lemma rasterize_triangle_ordered vertex_out self :
  0 <= ImBuf.x (Rasterizer.image_buffer_ self) < 2 ^ 32 ->
  ImBuf.y (Rasterizer.image_buffer_ self) <= 2 ^ 32 ->
  Runs.triangle_respects clamping_method
    (ImBuf.x (Rasterizer.image_buffer_ self)) (ImBuf.y (Rasterizer.image_buffer_ self))
    vertex_out ->
  exists rs,
    Forall (Runs.ordered (ImBuf.x (Rasterizer.image_buffer_ self))
                         (ImBuf.y (Rasterizer.image_buffer_ self))) rs
    /\ Rasterizer.same_core (rasterize_triangle vertex_out self) (appends rs self).
Proof.
  intros Hw Hh Hall.
  set (width := ImBuf.x (Rasterizer.image_buffer_ self)) in *.
  set (height := ImBuf.y (Rasterizer.image_buffer_ self)) in *.
  set (I := fun s : rasterizer =>
              exists rs, Forall (Runs.ordered width height) rs
                         /\ Rasterizer.same_core s (appends rs self)).
  set (P := fun (v : Z) (l r : VertexOut Inner) =>
              Pipeline.inside height v = true ->
              Runs.respects clamping_method width
                (Rasterizer.coord_x l) (Rasterizer.coord_x r)).
  assert (Hrow : forall v left_ right_ s,
    P v left_ right_ -> I s ->
    0 <= v < ImBuf.y (Rasterizer.image_buffer_ s) ->
    match clamped_rasterline v (Rasterizer.coord_x left_) (Rasterizer.coord_x right_)
            (VertexOutInterface.data left_) (VertexOutInterface.data right_) s with
    | (Some r, s') => I (append r s')
    | (None, s') => I s'
    end).
  { intros v l r s HP (rs & Hrs & Hcore) Hv.
    destruct (appends_dims fragment_shader_ RasterlinesSize rs self) as [Dx Dy].
    cbv zeta in Dx, Dy.
    assert (Sx : ImBuf.x (Rasterizer.image_buffer_ s) = width)
      by (destruct Hcore as (_ & -> & _); exact Dx).
    assert (Sy : ImBuf.y (Rasterizer.image_buffer_ s) = height)
      by (destruct Hcore as (_ & -> & _); exact Dy).
    pose proof (clamped_rasterline_frame fragment_shader_ clamping_method v
                  (Rasterizer.coord_x l) (Rasterizer.coord_x r)
                  (VertexOutInterface.data l) (VertexOutInterface.data r) s) as Hc.
    pose proof (clamped_rasterline_ordered v
                  (Rasterizer.coord_x l) (Rasterizer.coord_x r)
                  (VertexOutInterface.data l) (VertexOutInterface.data r) s) as Hord.
    cbv zeta in Hc.
    destruct (clamped_rasterline _ _ _ _ _ _) as [[r'|] s']; cbn [fst snd] in *;
      destruct Hc as (C1 & C2 & _ & _ & C5 & _).
    - exists (rs ++ [r']). split.
      + apply Forall_app. split; [exact Hrs|]. constructor; [|constructor].
        rewrite Sx, Sy in Hord. apply Hord; try reflexivity; try assumption.
        * rewrite <- Sy. exact Hv.
        * apply HP. unfold Pipeline.inside. rewrite Sy in Hv.
          apply andb_true_iff. split; [apply Z.leb_le|apply Z.ltb_lt]; lia.
      + unfold Rasterizer.appends. rewrite fold_left_app. cbn [fold_left].
        apply append_same_core. apply same_core_trans with s; [|exact Hcore].
        repeat split; assumption.
    - exists rs. split; [exact Hrs|].
      apply same_core_trans with s; [|exact Hcore]. repeat split; assumption. }
  unfold Runs.triangle_respects, Runs.triangle_steps in Hall.
  unfold Rasterizer.rasterize_triangle, Rasterizer.scanlines.
  fold (Rasterizer.phase1_rows clamping_method vertex_out).
  fold (Rasterizer.phase2_rows clamping_method vertex_out).
  destruct (Rasterizer.edge_setup _ _) as [[[l r] la] ra].
  destruct (scanlines_cursors la ra (Rasterizer.phase1_rows clamping_method vertex_out)
              (Rasterizer.mk_scan l r self)) as [Cl Cr].
  cbn [Rasterizer.scan_left Rasterizer.scan_right] in Cl, Cr.
  rewrite Cl, Cr.
  destruct (Rasterizer.edge_handoff _ _ _ _ _ _) as [[[l2 r2] la2] ra2].
  apply Forall_app in Hall. destruct Hall as [Hall1 Hall2].
  apply (steps_invariant I P la2 ra2 Hrow).
  - exact Hall2.
  - cbn [Rasterizer.scan_self].
    apply (steps_invariant I P la ra Hrow).
    + exact Hall1.
    + exists []. split; [constructor|apply same_core_refl].
Qed.

(** C5, as the code has it: every rasterline that [draw_triangle] creates and
    appends has a row of the buffer and its columns in order on the buffer,
    [0 <= row < buffer_height] and [0 <= start_col <= end_col <= buffer_width],
    when on the rows of the triangle that are rows of the buffer the ends of
    the runs are numbers and the clamping method keeps to its contract
    (monotone, not negative for a coordinate that is not negative, at most the
    width below the width).  The two columns may be equal. *)
Theorem draw_triangle_rasterlines_ordered (p1 p2 p3 : VertexInputType) self :
  0 <= ImBuf.x (Rasterizer.image_buffer_ self) < 2 ^ 32 ->
  ImBuf.y (Rasterizer.image_buffer_ self) <= 2 ^ 32 ->
  Runs.triangle_respects clamping_method
    (ImBuf.x (Rasterizer.image_buffer_ self)) (ImBuf.y (Rasterizer.image_buffer_ self))
    (vertex_shader_ p1, vertex_shader_ p2, vertex_shader_ p3) ->
  exists rs,
    Forall (Runs.ordered (ImBuf.x (Rasterizer.image_buffer_ self))
                         (ImBuf.y (Rasterizer.image_buffer_ self))) rs
    /\ Rasterizer.same_core (draw_triangle p1 p2 p3 self) (appends rs self).
Proof.
  intros Hw Hh Hall. unfold Rasterizer.draw_triangle.
  destruct (Rasterizer.triangle_not_visible _ _).
  - exists []. split; [constructor|]. repeat split.
  - destruct (rasterize_triangle_ordered
                (vertex_shader_ p1, vertex_shader_ p2, vertex_shader_ p3)
                (Rasterizer.with_stats Stats.increase_triangles self) Hw Hh Hall)
      as (rs & Hrs & Hcore).
    exists rs. split; [exact Hrs|].
    apply same_core_trans with (1 := Hcore).
    apply appends_same_core. repeat split.
Qed.

End OrderedRasterlines.

(** *** A triangle that is clamped on both sides *)

Lemma draw_triangle_rasterlines_ordered_witness :
  let self := Usage.flushed 8 8 in
  let p1 := Usage.point 4 (-2) in
  let p2 := Usage.point (-6) 6 in
  let p3 := Usage.point 14 6 in
  (0 <= ImBuf.x (Rasterizer.image_buffer_ self) < 2 ^ 32)
  /\ ImBuf.y (Rasterizer.image_buffer_ self) <= 2 ^ 32
  /\ Runs.triangle_respects CenterPixelClampingMethod.method 8 8
       (Usage.vertex p1, Usage.vertex p2, Usage.vertex p3)
  /\ exists rs,
       Forall (Runs.ordered 8 8) rs
       /\ Rasterizer.same_core
            (Usage.draw_triangle 4096 p1 p2 p3 self)
            (Rasterizer.appends Usage.fragment 4096 rs self).
Proof.
  cbv zeta.
  assert (Hrespects :
    Runs.triangle_respects CenterPixelClampingMethod.method 8 8
      (Usage.vertex (Usage.point 4 (-2)), Usage.vertex (Usage.point (-6) 6),
       Usage.vertex (Usage.point 14 6))).
  { unfold Runs.triangle_respects.
    match goal with
    | |- Forall _ ?l =>
        let l' := eval vm_compute in l in
        let E := fresh in
        assert (E : l = l') by (vm_compute; reflexivity); rewrite E; clear E
    end.
    repeat (apply Forall_cons;
            [intros _; unfold Runs.respects;
             split; [vm_compute; reflexivity|];
             split; [vm_compute; reflexivity|];
             split; [intros _; vm_compute; congruence|];
             split; [intros _; vm_compute; congruence|];
             split; [intros _; vm_compute; congruence|];
             vm_compute; reflexivity|]).
    apply Forall_nil. }
  split; [cbn; lia|]. split; [cbn; lia|]. split; [exact Hrespects|].
  unfold Usage.draw_triangle.
  apply (draw_triangle_rasterlines_ordered Usage.vertex Usage.fragment 4096
           CenterPixelClampingMethod.method (Usage.point 4 (-2))
           (Usage.point (-6) 6) (Usage.point 14 6) (Usage.flushed 8 8)).
  - cbn; lia.
  - cbn; lia.
  - exact Hrespects.
Defined.
